(** * Configuration file format converter (YAML / JSON / TOML)

    A shallow embedding of [main.py]: [load_file], [write_file] and [main],
    with Python's exceptions, the [logging] records and the file system made
    explicit.  The three codec libraries (PyYAML, json, toml) are third-party
    code: their parsers and serializers enter as a record of functions, and
    every theorem about the converter holds for whatever these functions
    do.  Of the [toml] module, which exception classes it has by name is
    fixed as well. *)

From Stdlib Require Import ZArith Ascii String.
From stdpp Require Import base strings list gmap.

Local Open Scope string_scope.

Set Warnings "-register-all".

(** ** Python values *)

(** The objects the parsers build and the serializers consume.  The first
    seven constructors are the format-agnostic tree (a [dict] keeps its
    insertion order, and its keys are values: YAML allows keys that are not
    strings); the others are the further objects a parser can construct
    (YAML timestamps, binary scalars and sets, TOML dates) and, last, any
    other Python object. *)
Inductive value : Type :=
| VNone
| VBool (b : bool)
| VInt (n : Z)
| VFloat (repr : string)
| VStr (s : string)
| VList (items : list value)
| VDict (items : list (value * value))
| VDate (year month day : Z)
| VBytes (b : string)
| VSet (items : list value)
| VObject (cls : string).

(** A Generic Value: null, boolean, number, string, sequence, or mapping from
    string keys, all the way down. *)
Fixpoint generic (v : value) : bool :=
  match v with
  | VNone | VBool _ | VInt _ | VFloat _ | VStr _ => true
  | VList items => forallb generic items
  | VDict items =>
      forallb (fun kv => match kv with
                         | (VStr _, x) => generic x
                         | _ => false
                         end) items
  | VDate _ _ _ | VBytes _ | VSet _ | VObject _ => false
  end.

(** The values of the standard YAML tags: a Generic Value whose mapping keys
    may be any standard value, and timestamps, binary scalars and sets. *)
Fixpoint standard (v : value) : bool :=
  match v with
  | VNone | VBool _ | VInt _ | VFloat _ | VStr _ => true
  | VDate _ _ _ | VBytes _ => true
  | VList items | VSet items => forallb standard items
  | VDict items =>
      forallb (fun kv => match kv with
                         | (k, x) => standard k && standard x
                         end) items
  | VObject _ => false
  end.

Definition is_mapping (v : value) : bool :=
  match v with VDict _ => true | _ => false end.

(** A bare scalar or a list at the top level. *)
Definition scalar_or_list (v : value) : bool :=
  match v with
  | VNone | VBool _ | VInt _ | VFloat _ | VStr _ | VList _ => true
  | _ => false
  end.

(** ** Exceptions *)

(** The exception classes the program names or can meet; every one derives
    from [Exception]. *)
Inductive exn_class : Type :=
| Exception
| OSError
| FileNotFoundError
| PermissionError
| IsADirectoryError
| ValueError
| JSONDecodeError
| TomlDecodeError
| UnicodeDecodeError
| YAMLError
| TypeError
| AttributeError
| OtherError (name : string).

#[global] Instance exn_class_eq_dec : EqDecision exn_class.
Proof. solve_decision. Defined.

(** Direct base class. *)
Definition base_class (c : exn_class) : option exn_class :=
  match c with
  | Exception => None
  | FileNotFoundError | PermissionError | IsADirectoryError => Some OSError
  | JSONDecodeError | TomlDecodeError | UnicodeDecodeError => Some ValueError
  | OSError | ValueError | YAMLError | TypeError | AttributeError
  | OtherError _ => Some Exception
  end.

(** [issubclass c d]: the hierarchy is two levels deep below [Exception]. *)
Definition issubclass (c d : exn_class) : bool :=
  bool_decide (c = d)
  || match base_class c with
     | Some b => bool_decide (b = d)
                 || match base_class b with
                    | Some b' => bool_decide (b' = d)
                    | None => false
                    end
     | None => false
     end.

Record exn : Type := mk_exn { exn_class_of : exn_class; str : string }.

Definition isinstance (e : exn) (c : exn_class) : bool :=
  issubclass (exn_class_of e) c.

(** ** The world: files and the log *)

Inductive node : Type :=
| File (readable writable : bool) (content : string)
| Dir.

Inductive level : Type := INFO | WARNING | ERROR.

#[global] Instance level_eq_dec : EqDecision level.
Proof. solve_decision. Defined.

(** A log record is its level and message; the time stamp that the format
    string adds is left out. *)
Record world : Type := mk_world {
  files : gmap string node;
  log : list (level * string)
}.

(** ** Computations that may raise or exit *)

(** [Exit] is [SystemExit] on its way up: no [except] clause of the program
    catches it, since all of them name subclasses of [Exception]. *)
Inductive outcome (A : Type) : Type :=
| Return (a : A)
| Raise (e : exn)
| Exit (status : Z).
Arguments Return {A} a.
Arguments Raise {A} e.
Arguments Exit {A} status.

Definition M (A : Type) : Type := world -> outcome A * world.

Definition ret {A} (a : A) : M A := fun w => (Return a, w).

Definition raise {A} (e : exn) : M A := fun w => (Raise e, w).

Definition sys_exit {A} (status : Z) : M A := fun w => (Exit status, w).

Definition bind {A B} (m : M A) (k : A -> M B) : M B :=
  fun w => match m w with
           | (Return a, w') => k a w'
           | (Raise e, w') => (Raise e, w')
           | (Exit s, w') => (Exit s, w')
           end.

#[global] Instance M_ret : MRet M := @ret.
#[global] Instance M_bind : MBind M := fun A B k m => bind m k.

(** [try: body except c1: h1 except c2: h2 ...]: the first clause whose class
    the exception is an instance of handles it. *)
Fixpoint dispatch {A} (handlers : list (exn_class * (exn -> M A))) (e : exn)
  : M A :=
  match handlers with
  | [] => raise e
  | (c, h) :: rest => if isinstance e c then h e else dispatch rest e
  end.

Definition try_except {A} (body : M A)
    (handlers : list (exn_class * (exn -> M A))) : M A :=
  fun w => match body w with
           | (Raise e, w') => dispatch handlers e w'
           | r => r
           end.

Definition logging (l : level) (msg : string) : M unit :=
  fun w => (Return tt, mk_world (files w) (log w ++ [(l, msg)])).

(** ** Files *)

Definition errno_msg (what path : string) : string :=
  what ++ ": '" ++ path ++ "'".

(** [open(path, 'r')], giving the text of the file. *)
Definition open_r (path : string) : M string :=
  fun w => match files w !! path with
           | None =>
               (Raise (mk_exn FileNotFoundError
                         (errno_msg "[Errno 2] No such file or directory" path)), w)
           | Some Dir =>
               (Raise (mk_exn IsADirectoryError
                         (errno_msg "[Errno 21] Is a directory" path)), w)
           | Some (File r _ c) =>
               if r then (Return c, w)
               else (Raise (mk_exn PermissionError
                              (errno_msg "[Errno 13] Permission denied" path)), w)
           end.

(** [open(path, 'w')]: creates the file or truncates it.  The handle is the
    path.  (The directory that is to hold a new file is taken to exist.) *)
Definition open_w (path : string) : M string :=
  fun w => match files w !! path with
           | None =>
               (Return path,
                mk_world (<[path := File true true ""]> (files w)) (log w))
           | Some Dir =>
               (Raise (mk_exn IsADirectoryError
                         (errno_msg "[Errno 21] Is a directory" path)), w)
           | Some (File r wr _) =>
               if wr
               then (Return path,
                     mk_world (<[path := File r wr ""]> (files w)) (log w))
               else (Raise (mk_exn PermissionError
                              (errno_msg "[Errno 13] Permission denied" path)), w)
           end.

(** [f.write(s)] on a handle from [open_w]. *)
Definition f_write (f : string) (s : string) : M unit :=
  fun w => match files w !! f with
           | Some (File r wr c) =>
               (Return tt,
                mk_world (<[f := File r wr (c ++ s)]> (files w)) (log w))
           | _ => (Return tt, w)
           end.

(** ** The codec libraries *)

(** What a parser call gives. *)
Inductive result (A : Type) : Type :=
| Ok (a : A)
| Err (e : exn).
Arguments Ok {A} a.
Arguments Err {A} e.

(** What a serializer call does to the stream it is given: the text it wrote,
    and the exception it raised, if any (text written before the exception
    stays in the file). *)
Record emitted : Type := mk_emitted {
  text : string;
  failure : option exn
}.

Inductive yaml_loader : Type := BaseLoader | SafeLoader | FullLoader | UnsafeLoader.

Record codecs : Type := mk_codecs {
  yaml_load : yaml_loader -> string -> result value;
  json_load : string -> result value;
  toml_load : string -> result value;
  yaml_dump : value -> nat -> emitted;   (* data, indent *)
  json_dump : value -> nat -> emitted;   (* data, indent *)
  toml_dump : value -> emitted
}.

(** The exception classes of the [toml] module, by name.  The module has
    [TomlDecodeError] and no class for encoding: the expression
    [toml.TomlEncodeError] raises [AttributeError]. *)
Definition toml_getattr (name : string) : result exn_class :=
  if String.eqb name "TomlDecodeError" then Ok TomlDecodeError
  else Err (mk_exn AttributeError
              ("module 'toml' has no attribute '" ++ name ++ "'")).

(** An [except] clause whose class is given by an attribute expression.  The
    expression is evaluated when an exception reaches the clause; when that
    raises, the new exception takes the place of the one on its way. *)
Definition except_attr {A} (cls : result exn_class) (h : exn -> M A)
  : exn_class * (exn -> M A) :=
  match cls with
  | Ok c => (c, h)
  | Err a => (Exception, fun _ => raise a)
  end.

Definition call {A} (r : result A) : M A :=
  match r with
  | Ok a => ret a
  | Err e => raise e
  end.

(** A serializer writing to the open file [f]. *)
Definition dump_to (f : string) (out : emitted) : M unit :=
  f_write f (text out);;
  match failure out with
  | None => ret tt
  | Some e => raise e
  end.

(** ** The program *)

Record args : Type := mk_args {
  input_file : string;
  output_file : string;
  input_format : string;
  output_format : string
}.

(** The [choices] of [--input_format] and [--output_format]. *)
Definition choices : list string := ["yaml"; "json"; "toml"].

Section Converter.

Variable lib : codecs.

Definition load_file (file_path file_format : string) : M value :=
  try_except
    (f ← open_r file_path;
     if String.eqb file_format "yaml" then
       try_except (call (yaml_load lib SafeLoader f))
         [(YAMLError, fun e =>
             raise (mk_exn ValueError ("Error parsing YAML file: " ++ str e)))]
     else if String.eqb file_format "json" then
       try_except (call (json_load lib f))
         [(JSONDecodeError, fun e =>
             raise (mk_exn ValueError ("Error parsing JSON file: " ++ str e)))]
     else if String.eqb file_format "toml" then
       try_except (call (toml_load lib f))
         [(TomlDecodeError, fun e =>
             raise (mk_exn ValueError ("Error parsing TOML file: " ++ str e)))]
     else
       raise (mk_exn ValueError ("Unsupported input format: " ++ file_format)))
    [(FileNotFoundError, fun e =>
        logging ERROR ("Input file not found: " ++ file_path);; raise e);
     (ValueError, fun e => logging ERROR (str e);; raise e)].

Definition write_file (data : value) (file_path file_format : string)
  : M unit :=
  try_except
    (f ← open_w file_path;
     if String.eqb file_format "yaml" then
       try_except (dump_to f (yaml_dump lib data 2))
         [(YAMLError, fun e =>
             raise (mk_exn ValueError ("Error writing YAML file: " ++ str e)))]
     else if String.eqb file_format "json" then
       try_except (dump_to f (json_dump lib data 2))
         [(TypeError, fun e =>
             raise (mk_exn ValueError ("Error writing JSON file: " ++ str e)))]
     else if String.eqb file_format "toml" then
       try_except (dump_to f (toml_dump lib data))
         [except_attr (toml_getattr "TomlEncodeError") (fun e =>
             raise (mk_exn ValueError ("Error writing TOML file: " ++ str e)))]
     else
       raise (mk_exn ValueError ("Unsupported output format: " ++ file_format)))
    [(ValueError, fun e => logging ERROR (str e);; raise e);
     (Exception, fun e =>
        logging ERROR ("An unexpected error occurred: " ++ str e);; raise e)].

Definition same_format_warning : string :=
  "Input and output formats are the same.  No conversion will occur.".

Definition success_message (a : args) : string :=
  "Successfully converted " ++ input_file a ++ " (" ++ input_format a
  ++ ") to " ++ output_file a ++ " (" ++ output_format a ++ ").".

(** The first statement of [main]: the check of the two format tags. *)
Definition check_formats (a : args) : M unit :=
  if String.eqb (input_format a) (output_format a)
  then logging WARNING same_format_warning
  else ret tt.

(** The body of the [try] statement of [main]. *)
Definition convert (a : args) : M unit :=
  data ← load_file (input_file a) (input_format a);
  write_file data (output_file a) (output_format a);;
  logging INFO (success_message a).

(** [main], from the parsed arguments on. *)
Definition main (a : args) : M unit :=
  check_formats a;;
  try_except (convert a)
    [(FileNotFoundError, fun _ => sys_exit 1);
     (ValueError, fun _ => sys_exit 1);
     (Exception, fun e =>
        logging ERROR ("An unexpected error occurred: " ++ str e);;
        sys_exit 1)].

(** The exit status of the process, from how [main] ends: 0 when it returns,
    the status given to [sys.exit], and 1 for an exception nobody caught. *)
Definition exit_status {A} (o : outcome A) : Z :=
  match o with
  | Return _ => 0
  | Exit s => s
  | Raise _ => 1
  end.

Definition run (a : args) (w : world) : Z * world :=
  let (o, w') := main a w in (exit_status o, w').

End Converter.

(** ** The three formats *)

(** The tags of [choices], as a type, to state what holds for each format. *)
Inductive format : Type := Yaml | Json | Toml.

Definition tag (f : format) : string :=
  match f with
  | Yaml => "yaml"
  | Json => "json"
  | Toml => "toml"
  end.

(** The decision of the [if]/[elif] chains of [load_file] and [write_file]:
    [None] is their [else] branch. *)
Definition select (file_format : string) : option format :=
  if String.eqb file_format "yaml" then Some Yaml
  else if String.eqb file_format "json" then Some Json
  else if String.eqb file_format "toml" then Some Toml
  else None.

(** The library call of each branch of [load_file] and of [write_file]. *)
Definition parser (lib : codecs) (f : format) : string -> result value :=
  match f with
  | Yaml => yaml_load lib SafeLoader
  | Json => json_load lib
  | Toml => toml_load lib
  end.

Definition serializer (lib : codecs) (f : format) (v : value) : emitted :=
  match f with
  | Yaml => yaml_dump lib v 2
  | Json => json_dump lib v 2
  | Toml => toml_dump lib v
  end.

(** The library exception each branch turns into a [ValueError], and the
    words put before its text. *)
Definition decode_error (f : format) : exn_class * string :=
  match f with
  | Yaml => (YAMLError, "Error parsing YAML file: ")
  | Json => (JSONDecodeError, "Error parsing JSON file: ")
  | Toml => (TomlDecodeError, "Error parsing TOML file: ")
  end.

Definition translate (how : exn_class * string) (e : exn) : exn :=
  if isinstance e how.1 then mk_exn ValueError (how.2 ++ str e) else e.

(** What the inner [except] clause of each branch of [write_file] makes of an
    exception of the serializer.  The clause of the TOML branch names a
    class the module does not have, so the [AttributeError] of that name
    replaces whatever [toml.dump] raised. *)
Definition encode_failure (f : format) (e : exn) : exn :=
  match f with
  | Yaml => translate (YAMLError, "Error writing YAML file: ") e
  | Json => translate (TypeError, "Error writing JSON file: ") e
  | Toml =>
      match toml_getattr "TomlEncodeError" with
      | Ok c => translate (c, "Error writing TOML file: ") e
      | Err a => a
      end
  end.

Definition add_log (entries : list (level * string)) (w : world) : world :=
  mk_world (files w) (log w ++ entries).

Definition set_file (path : string) (n : node) (w : world) : world :=
  mk_world (<[path := n]> (files w)) (log w).

(** What the handlers of [load_file] log for an exception. *)
Definition load_report (file_path : string) (e : exn) : list (level * string) :=
  if isinstance e FileNotFoundError
  then [(ERROR, "Input file not found: " ++ file_path)]
  else if isinstance e ValueError then [(ERROR, str e)]
  else [].

(** What the handlers of [write_file] log for an exception. *)
Definition write_report (e : exn) : list (level * string) :=
  if isinstance e ValueError then [(ERROR, str e)]
  else [(ERROR, "An unexpected error occurred: " ++ str e)].

(** [load_file] on a readable file of text [c], when the branch of format [f]
    runs. *)
Definition load_via (lib : codecs) (f : format) (file_path c : string)
    (w : world) : outcome value * world :=
  match parser lib f c with
  | Ok v => (Return v, w)
  | Err e =>
      let e' := translate (decode_error f) e in
      (Raise e', add_log (load_report file_path e') w)
  end.

(** [write_file] once the output file is open (and readable or not, [r]),
    when the branch of format [f] runs. *)
Definition write_via (lib : codecs) (f : format) (v : value)
    (file_path : string) (r : bool) (w : world) : outcome unit * world :=
  let out := serializer lib f v in
  let w' := set_file file_path (File r true (text out)) w in
  match failure out with
  | None => (Return tt, w')
  | Some e =>
      let e' := encode_failure f e in
      (Raise e', add_log (write_report e') w')
  end.

(** What [check_formats] logs. *)
Definition advisory (a : args) : list (level * string) :=
  if String.eqb (input_format a) (output_format a)
  then [(WARNING, same_format_warning)]
  else [].

(** What the handlers of [main] log for an exception. *)
Definition main_report (e : exn) : list (level * string) :=
  if isinstance e FileNotFoundError then []
  else if isinstance e ValueError then []
  else [(ERROR, "An unexpected error occurred: " ++ str e)].

(** A path [open(path, 'w')] accepts, and that can be read afterwards: free,
    or a file that may be both read and written. *)
Definition usable_output (w : world) (path : string) : bool :=
  match files w !! path with
  | None => true
  | Some (File r wr _) => r && wr
  | Some Dir => false
  end.

(** [open(path, 'w')] on what the path holds: the read permission of the
    file it leaves open, or [None] when it raises. *)
Definition open_mode (n : option node) : option bool :=
  match n with
  | None => Some true
  | Some (File r wr _) => if wr then Some r else None
  | Some Dir => None
  end.

(** The parser of format [f] rejects the text [c] with its own decode error;
    [msg] is the message of the [ValueError] made of it. *)
Definition parse_fails (lib : codecs) (f : format) (c msg : string) : Prop :=
  exists e, parser lib f c = Err e
            /\ isinstance e (decode_error f).1 = true
            /\ msg = (decode_error f).2 ++ str e.




(** The library takes [v] through format [f] and back unchanged, the order of
    keys included: the serializer writes a document for it and the parser
    reads that document back as [v]. *)
Definition expressible_in (lib : codecs) (f : format) (v : value) : Prop :=
  exists s, serializer lib f v = mk_emitted s None /\ parser lib f s = Ok v.

Definition expressible (lib : codecs) (v : value) : Prop :=
  forall f, expressible_in lib f v.

(** ** The libraries on sample documents *)

(** What PyYAML (with [SafeLoader]), [json] and [toml] do on the documents and
    values of the examples below (the text of an exception is given without
    the lines that tell the position).  A text or value that is not in the
    tables is outside the record: the call raises [NotRecorded]. *)
Module Sample.

Definition nl : string := String "010"%char "".
Definition dq : string := String "034"%char "".
Definition quoted (s : string) : string := dq ++ s ++ dq.

Fixpoint lines (l : list string) : string :=
  match l with
  | [] => ""
  | s :: rest => s ++ nl ++ lines rest
  end.

Fixpoint value_eqb (x y : value) {struct x} : bool :=
  let fix all_eqb (xs ys : list value) {struct xs} : bool :=
    match xs, ys with
    | [], [] => true
    | a :: xs', b :: ys' => value_eqb a b && all_eqb xs' ys'
    | _, _ => false
    end in
  let fix items_eqb (xs ys : list (value * value)) {struct xs} : bool :=
    match xs, ys with
    | [], [] => true
    | (k, a) :: xs', (k', b) :: ys' =>
        value_eqb k k' && value_eqb a b && items_eqb xs' ys'
    | _, _ => false
    end in
  match x, y with
  | VNone, VNone => true
  | VBool a, VBool b => Bool.eqb a b
  | VInt a, VInt b => Z.eqb a b
  | VFloat a, VFloat b | VStr a, VStr b | VBytes a, VBytes b
  | VObject a, VObject b => String.eqb a b
  | VList a, VList b | VSet a, VSet b => all_eqb a b
  | VDict a, VDict b => items_eqb a b
  | VDate y1 m1 d1, VDate y2 m2 d2 => Z.eqb y1 y2 && Z.eqb m1 m2 && Z.eqb d1 d2
  | _, _ => false
  end.

Definition not_recorded : exn := mk_exn (OtherError "NotRecorded") "".

Fixpoint parsed (table : list (string * result value)) (s : string)
  : result value :=
  match table with
  | [] => Err not_recorded
  | (s', r) :: rest => if String.eqb s s' then r else parsed rest s
  end.

Fixpoint dumped (table : list (value * emitted)) (v : value) : emitted :=
  match table with
  | [] => mk_emitted "" (Some not_recorded)
  | (v', out) :: rest => if value_eqb v v' then out else dumped rest v
  end.

(** [{"a": 1, "b": [1, 2, 3]}] *)
Definition ab : value :=
  VDict [(VStr "a", VInt 1); (VStr "b", VList [VInt 1; VInt 2; VInt 3])].

Definition ab_json_compact : string :=
  "{" ++ quoted "a" ++ ": 1, " ++ quoted "b" ++ ": [1,2,3]}".

Definition ab_json : string :=
  "{" ++ nl ++
  "  " ++ quoted "a" ++ ": 1," ++ nl ++
  "  " ++ quoted "b" ++ ": [" ++ nl ++
  "    1," ++ nl ++
  "    2," ++ nl ++
  "    3" ++ nl ++
  "  ]" ++ nl ++
  "}".

Definition ab_yaml : string := lines ["a: 1"; "b:"; "- 1"; "- 2"; "- 3"].

Definition ab_toml : string := lines ["a = 1"; "b = [ 1, 2, 3,]"].

(** A mapping with an integer key, as YAML allows. *)
Definition int_key : value := VDict [(VInt 1, VStr "a")].
Definition str_key : value := VDict [(VStr "1", VStr "a")].

Definition str_key_json : string :=
  "{" ++ nl ++ "  " ++ quoted "1" ++ ": " ++ quoted "a" ++ nl ++ "}".

(** A mapping written with its keys out of order, and in order. *)
Definition ba : value := VDict [(VStr "b", VInt 2); (VStr "a", VInt 1)].
Definition ba_yaml : string := lines ["b: 2"; "a: 1"].
Definition sorted_ab : value := VDict [(VStr "a", VInt 1); (VStr "b", VInt 2)].
Definition sorted_ab_yaml : string := lines ["a: 1"; "b: 2"].
Definition ba_json : string :=
  "{" ++ nl ++
  "  " ++ quoted "b" ++ ": 2," ++ nl ++
  "  " ++ quoted "a" ++ ": 1" ++ nl ++
  "}".
Definition ba_toml : string := lines ["b = 2"; "a = 1"].

Definition yaml_documents : list (string * result value) :=
  [ ("", Ok VNone);
    (lines ["null"; "..."], Ok VNone);
    (ab_yaml, Ok ab);
    (ba_yaml, Ok ba);
    (sorted_ab_yaml, Ok sorted_ab);
    ("1: a", Ok int_key);
    (lines ["1: a"], Ok int_key);
    ("2001-12-14", Ok (VDate 2001 12 14));
    (lines ["2001-12-14"; "..."], Ok (VDate 2001 12 14));
    ("!!python/name:os.system",
     Err (mk_exn YAMLError
            "could not determine a constructor for the tag 'tag:yaml.org,2002:python/name:os.system'")) ].

Definition json_documents : list (string * result value) :=
  [ (ab_json_compact, Ok ab);
    (ab_json, Ok ab);
    (ba_json, Ok ba);
    ("null", Ok VNone);
    ("5", Ok (VInt 5));
    ("[]", Ok (VList []));
    (str_key_json, Ok str_key);
    ("{",
     Err (mk_exn JSONDecodeError
            "Expecting property name enclosed in double quotes: line 1 column 2 (char 1)")) ].

Definition toml_documents : list (string * result value) :=
  [ (ab_toml, Ok ab);
    (ba_toml, Ok ba);
    ("", Ok (VDict [])) ].

Definition wrote (s : string) : emitted := mk_emitted s None.

Definition yaml_values : list (value * emitted) :=
  [ (VNone, wrote (lines ["null"; "..."]));
    (VInt 5, wrote (lines ["5"; "..."]));
    (VList [], wrote (lines ["[]"]));
    (ab, wrote ab_yaml);
    (ba, wrote sorted_ab_yaml);
    (sorted_ab, wrote sorted_ab_yaml);
    (int_key, wrote (lines ["1: a"]));
    (VDate 2001 12 14, wrote (lines ["2001-12-14"; "..."])) ].

Definition json_values : list (value * emitted) :=
  [ (VNone, wrote "null");
    (VInt 5, wrote "5");
    (VList [], wrote "[]");
    (ab, wrote ab_json);
    (ba, wrote ba_json);
    (int_key, wrote str_key_json);
    (str_key, wrote str_key_json);
    (VDate 2001 12 14,
     mk_emitted ""
       (Some (mk_exn TypeError "Object of type date is not JSON serializable"))) ].

Definition toml_values : list (value * emitted) :=
  [ (ab, wrote ab_toml);
    (ba, wrote ba_toml);
    (VDict [], wrote "");
    (VList [], wrote "");
    (VInt 5,
     mk_emitted "" (Some (mk_exn TypeError "'int' object is not iterable")));
    (VNone,
     mk_emitted ""
       (Some (mk_exn TypeError "'NoneType' object is not iterable"))) ].

Definition pylib : codecs :=
  {| yaml_load := fun loader s =>
       match loader with
       | SafeLoader => parsed yaml_documents s
       | _ => Err not_recorded
       end;
     json_load := parsed json_documents;
     toml_load := parsed toml_documents;
     yaml_dump := fun v _ => dumped yaml_values v;
     json_dump := fun v _ => dumped json_values v;
     toml_dump := dumped toml_values |}.

(** A small file system. *)
Definition disk : gmap string node :=
  list_to_map
    [ ("config.json", File true true ab_json_compact);
      ("config.yaml", File true true ab_yaml);
      ("unsorted.yaml", File true true ba_yaml);
      ("empty.yaml", File true true "");
      ("keys.yaml", File true true "1: a");
      ("date.yaml", File true true "2001-12-14");
      ("tagged.yaml", File true true "!!python/name:os.system");
      ("broken.json", File true true "{");
      ("locked.json", File false true ab_json_compact);
      ("readonly.yaml", File true false ab_yaml);
      ("etc", Dir) ].

Definition boot : world := mk_world disk [].

End Sample.


(** ** How [load_file] and [write_file] run *)

Ltac step_py :=
  unfold mbind, M_bind, bind, try_except, call, ret, raise, sys_exit, logging;
  simpl.

Section Views.

Variable lib : codecs.

Lemma isinstance_Exception e : isinstance e Exception = true.
Proof. destruct e as [[] m]; reflexivity. Qed.

Lemma isinstance_ValueError m c :
  isinstance (mk_exn ValueError m) c
  = bool_decide (c = ValueError) || bool_decide (c = Exception).
Proof. destruct c; reflexivity. Qed.

Lemma add_log_nil w : add_log [] w = w.
Proof. destruct w as [fs l]. unfold add_log. simpl. by rewrite app_nil_r. Qed.

Lemma load_file_missing p fmt w :
  files w !! p = None ->
  load_file lib p fmt w
  = (Raise (mk_exn FileNotFoundError
              (errno_msg "[Errno 2] No such file or directory" p)),
     add_log [(ERROR, "Input file not found: " ++ p)] w).
Proof.
  intros Hp. unfold load_file, open_r. step_py. rewrite Hp. reflexivity.
Qed.

Lemma load_file_unreadable p fmt w wr c :
  files w !! p = Some (File false wr c) ->
  load_file lib p fmt w
  = (Raise (mk_exn PermissionError
              (errno_msg "[Errno 13] Permission denied" p)), w).
Proof.
  intros Hp. unfold load_file, open_r. step_py. rewrite Hp. reflexivity.
Qed.

Lemma load_file_directory p fmt w :
  files w !! p = Some Dir ->
  load_file lib p fmt w
  = (Raise (mk_exn IsADirectoryError
              (errno_msg "[Errno 21] Is a directory" p)), w).
Proof.
  intros Hp. unfold load_file, open_r. step_py. rewrite Hp. reflexivity.
Qed.

Lemma load_file_readable p f w wr c :
  files w !! p = Some (File true wr c) ->
  load_file lib p (tag f) w = load_via lib f p c w.
Proof.
  intros Hp. unfold load_via, load_file, open_r. step_py. rewrite Hp.
  destruct f; simpl.
  all: match goal with |- context [match ?r with Ok _ => _ | Err _ => _ end] =>
         destruct r as [v|e] end; simpl; try reflexivity.
  all: unfold translate, load_report; simpl.
  all: destruct (isinstance e _) eqn:Hc; simpl;
    rewrite ?isinstance_ValueError; simpl; try reflexivity.
  all: destruct (isinstance e FileNotFoundError); simpl; try reflexivity.
  all: destruct (isinstance e ValueError); simpl; try reflexivity.
  all: by rewrite add_log_nil.
Qed.

Lemma select_tag f : select (tag f) = Some f.
Proof. by destruct f. Qed.

Lemma select_Some fmt f : select fmt = Some f -> fmt = tag f.
Proof.
  unfold select. intros H.
  destruct (String.eqb_spec fmt "yaml") as [->|_]; [by inversion H|].
  destruct (String.eqb_spec fmt "json") as [->|_]; [by inversion H|].
  destruct (String.eqb_spec fmt "toml") as [->|_]; [by inversion H|].
  discriminate.
Qed.

Lemma select_None fmt :
  select fmt = None ->
  String.eqb fmt "yaml" = false /\ String.eqb fmt "json" = false
  /\ String.eqb fmt "toml" = false.
Proof.
  unfold select. intros H.
  destruct (String.eqb fmt "yaml"); [discriminate|].
  destruct (String.eqb fmt "json"); [discriminate|].
  destruct (String.eqb fmt "toml"); [discriminate|]. done.
Qed.

Lemma select_choices fmt : fmt ∈ choices <-> is_Some (select fmt).
Proof.
  unfold choices. split.
  - rewrite !elem_of_cons. intros [->|[->|[->|H]]]; simpl; eauto.
    by apply elem_of_nil in H.
  - intros [f Hf]. apply select_Some in Hf as ->.
    destruct f; simpl; set_solver.
Qed.

Lemma load_file_unsupported p fmt w wr c :
  select fmt = None ->
  files w !! p = Some (File true wr c) ->
  load_file lib p fmt w
  = (Raise (mk_exn ValueError ("Unsupported input format: " ++ fmt)),
     add_log [(ERROR, "Unsupported input format: " ++ fmt)] w).
Proof.
  intros (Hy & Hj & Ht)%select_None Hp.
  unfold load_file, open_r. step_py. rewrite Hp, Hy, Hj, Ht. reflexivity.
Qed.

Lemma write_file_refused v p fmt w :
  open_mode (files w !! p) = None ->
  exists e,
    isinstance e OSError = true
    /\ write_file lib v p fmt w
       = (Raise e,
          add_log [(ERROR, "An unexpected error occurred: " ++ str e)] w).
Proof.
  intros Hm. unfold write_file, open_w. step_py.
  destruct (files w !! p) as [[r [] c|]|]; try discriminate; simpl.
  all: eexists (mk_exn _ _); split; [|reflexivity]; reflexivity.
Qed.

Lemma open_w_opened p w r :
  open_mode (files w !! p) = Some r ->
  open_w p w = (Return p, set_file p (File r true "") w).
Proof.
  unfold open_w, set_file.
  destruct (files w !! p) as [[r' [] c|]|]; simpl; intros H; by inversion H.
Qed.

Lemma dump_to_opened p r out w :
  dump_to p out (set_file p (File r true "") w)
  = (match failure out with
     | None => Return tt
     | Some e => Raise e
     end, set_file p (File r true (text out)) w).
Proof.
  unfold dump_to, f_write, set_file. step_py.
  rewrite lookup_insert_eq. simpl. rewrite insert_insert_eq.
  by destruct (failure out).
Qed.

Lemma write_file_opened v p f w r :
  open_mode (files w !! p) = Some r ->
  write_file lib v p (tag f) w = write_via lib f v p r w.
Proof.
  intros Hm. unfold write_via, write_file. step_py.
  rewrite (open_w_opened _ _ _ Hm).
  destruct f; simpl; rewrite dump_to_opened.
  all: destruct (failure _) as [e|]; simpl; try reflexivity.
  all: unfold translate, write_report; simpl.
  all: rewrite ?(isinstance_Exception e); simpl; try reflexivity.
  all: destruct (isinstance e _) eqn:Hc; simpl;
    rewrite ?isinstance_ValueError; simpl; try reflexivity.
  all: destruct (isinstance e ValueError); simpl; try reflexivity.
  all: by rewrite isinstance_Exception.
Qed.

Lemma write_file_unsupported v p fmt w r :
  select fmt = None ->
  open_mode (files w !! p) = Some r ->
  write_file lib v p fmt w
  = (Raise (mk_exn ValueError ("Unsupported output format: " ++ fmt)),
     add_log [(ERROR, "Unsupported output format: " ++ fmt)]
       (set_file p (File r true "") w)).
Proof.
  intros (Hy & Hj & Ht)%select_None Hm.
  unfold write_file. step_py.
  rewrite (open_w_opened _ _ _ Hm), Hy, Hj, Ht. reflexivity.
Qed.

Lemma load_file_no_exit p fmt w s w' : load_file lib p fmt w <> (Exit s, w').
Proof.
  destruct (files w !! p) as [[[] wr c|]|] eqn:Hp.
  - destruct (select fmt) as [f|] eqn:Hf.
    + apply select_Some in Hf as ->. rewrite (load_file_readable _ _ _ _ _ Hp).
      unfold load_via. by destruct (parser lib f c).
    + by rewrite (load_file_unsupported _ _ _ _ _ Hf Hp).
  - by rewrite (load_file_unreadable _ _ _ _ _ Hp).
  - by rewrite (load_file_directory _ _ _ Hp).
  - by rewrite (load_file_missing _ _ _ Hp).
Qed.

Lemma write_file_no_exit v p fmt w s w' :
  write_file lib v p fmt w <> (Exit s, w').
Proof.
  destruct (open_mode (files w !! p)) as [r|] eqn:Hm.
  - destruct (select fmt) as [f|] eqn:Hf.
    + apply select_Some in Hf as ->. rewrite (write_file_opened _ _ _ _ _ Hm).
      unfold write_via. simpl. by destruct (failure _).
    + by rewrite (write_file_unsupported _ _ _ _ _ Hf Hm).
  - destruct (write_file_refused v p fmt w Hm) as (e & _ & ->). done.
Qed.

Lemma check_formats_runs a w :
  check_formats a w = (Return tt, add_log (advisory a) w).
Proof.
  unfold check_formats, advisory. destruct (String.eqb _ _); [reflexivity|].
  by rewrite add_log_nil.
Qed.

Lemma dispatch_main e w :
  dispatch
    [(FileNotFoundError, fun _ => sys_exit 1);
     (ValueError, fun _ => sys_exit 1);
     (Exception, fun e =>
        logging ERROR ("An unexpected error occurred: " ++ str e);;
        sys_exit (A:=unit) 1)] e w
  = (Exit 1, add_log (main_report e) w).
Proof.
  unfold main_report. step_py.
  destruct (isinstance e FileNotFoundError); [by rewrite add_log_nil|].
  destruct (isinstance e ValueError); [by rewrite add_log_nil|].
  by rewrite isinstance_Exception.
Qed.

Lemma run_load_raises a w e w1 :
  load_file lib (input_file a) (input_format a) (check_formats a w).2
  = (Raise e, w1) ->
  run lib a w = (1%Z, add_log (main_report e) w1).
Proof.
  intros Hl. unfold run, main, convert, mbind, M_bind, bind, try_except.
  rewrite check_formats_runs in *. cbn [snd] in Hl. rewrite Hl.
  by rewrite dispatch_main.
Qed.

Lemma run_write_raises a w v w1 e w2 :
  load_file lib (input_file a) (input_format a) (check_formats a w).2
  = (Return v, w1) ->
  write_file lib v (output_file a) (output_format a) w1 = (Raise e, w2) ->
  run lib a w = (1%Z, add_log (main_report e) w2).
Proof.
  intros Hl Hw. unfold run, main, convert, mbind, M_bind, bind, try_except.
  rewrite check_formats_runs in *. cbn [snd] in Hl. rewrite Hl, Hw.
  by rewrite dispatch_main.
Qed.

Lemma run_success a w v w1 w2 :
  load_file lib (input_file a) (input_format a) (check_formats a w).2
  = (Return v, w1) ->
  write_file lib v (output_file a) (output_format a) w1 = (Return tt, w2) ->
  run lib a w = (0%Z, add_log [(INFO, success_message a)] w2).
Proof.
  intros Hl Hw. unfold run, main, convert, mbind, M_bind, bind, try_except.
  rewrite check_formats_runs in *. cbn [snd] in Hl. by rewrite Hl, Hw.
Qed.

Lemma load_file_returns p fmt w v w1 :
  load_file lib p fmt w = (Return v, w1) ->
  w1 = w
  /\ exists f wr c,
       fmt = tag f /\ files w !! p = Some (File true wr c)
       /\ parser lib f c = Ok v.
Proof.
  destruct (files w !! p) as [[[] wr c|]|] eqn:Hp.
  - destruct (select fmt) as [f|] eqn:Hf.
    + apply select_Some in Hf as ->. rewrite (load_file_readable _ _ _ _ _ Hp).
      unfold load_via. destruct (parser lib f c) as [v'|e] eqn:Hv; [|done].
      intros [= -> ->]. split; [done|]. by exists f, wr, c.
    + by rewrite (load_file_unsupported _ _ _ _ _ Hf Hp).
  - by rewrite (load_file_unreadable _ _ _ _ _ Hp).
  - by rewrite (load_file_directory _ _ _ Hp).
  - by rewrite (load_file_missing _ _ _ Hp).
Qed.

Lemma usable_output_mode w p :
  usable_output w p = true -> open_mode (files w !! p) = Some true.
Proof.
  unfold usable_output, open_mode.
  destruct (files w !! p) as [[[] [] c|]|]; done.
Qed.

(** [load_file] looks at the file of its path only, and changes no file. *)
Lemma load_file_frame p fmt w1 w2 :
  files w1 !! p = files w2 !! p ->
  exists o entries,
    load_file lib p fmt w1 = (o, add_log entries w1)
    /\ load_file lib p fmt w2 = (o, add_log entries w2).
Proof.
  intros H. destruct (files w1 !! p) as [[[] wr c|]|] eqn:Hp1; symmetry in H.
  - destruct (select fmt) as [f|] eqn:Hf.
    + apply select_Some in Hf as ->.
      rewrite (load_file_readable _ _ _ _ _ Hp1), (load_file_readable _ _ _ _ _ H).
      unfold load_via. destruct (parser lib f c) as [v|e].
      * exists (Return v), []. by rewrite !add_log_nil.
      * by eexists _, _.
    + rewrite (load_file_unsupported _ _ _ _ _ Hf Hp1),
        (load_file_unsupported _ _ _ _ _ Hf H). by eexists _, _.
  - rewrite (load_file_unreadable _ _ _ _ _ Hp1), (load_file_unreadable _ _ _ _ _ H).
    eexists _, []. by rewrite !add_log_nil.
  - rewrite (load_file_directory _ _ _ Hp1), (load_file_directory _ _ _ H).
    eexists _, []. by rewrite !add_log_nil.
  - rewrite (load_file_missing _ _ _ Hp1), (load_file_missing _ _ _ H).
    by eexists _, _.
Qed.

(** [write_file] looks at the file of its path only, and changes no other. *)
Lemma write_file_frame v p fmt w1 w2 :
  files w1 !! p = files w2 !! p ->
  exists o entries,
    (exists n,
       write_file lib v p fmt w1 = (o, add_log entries (set_file p n w1))
       /\ write_file lib v p fmt w2 = (o, add_log entries (set_file p n w2)))
    \/ (write_file lib v p fmt w1 = (o, add_log entries w1)
        /\ write_file lib v p fmt w2 = (o, add_log entries w2)).
Proof.
  intros H. destruct (open_mode (files w1 !! p)) as [r|] eqn:Hm1.
  - assert (Hm2 : open_mode (files w2 !! p) = Some r) by by rewrite <- H.
    destruct (select fmt) as [f|] eqn:Hf.
    + apply select_Some in Hf as ->.
      rewrite (write_file_opened _ _ _ _ _ Hm1), (write_file_opened _ _ _ _ _ Hm2).
      unfold write_via. simpl. destruct (failure (serializer lib f v)) as [e|].
      * eexists _, _. left. by eexists.
      * exists (Return tt), []. left. eexists. by rewrite !add_log_nil.
    + rewrite (write_file_unsupported _ _ _ _ _ Hf Hm1),
        (write_file_unsupported _ _ _ _ _ Hf Hm2).
      eexists _, _. left. by eexists.
  - unfold write_file, open_w. step_py. rewrite <- H.
    destruct (files w1 !! p) as [[r [] c|]|]; try discriminate; simpl.
    all: eexists _, _; right; split; reflexivity.
Qed.

(** The run looks at the files of its two paths only; it logs the advisory
    first. *)
Lemma run_frame a w1 w2 :
  files w1 !! input_file a = files w2 !! input_file a ->
  files w1 !! output_file a = files w2 !! output_file a ->
  exists st entries,
    (run lib a w1).1 = st /\ (run lib a w2).1 = st
    /\ files (run lib a w1).2 !! output_file a
       = files (run lib a w2).2 !! output_file a
    /\ log (run lib a w1).2 = (log w1 ++ advisory a ++ entries)%list
    /\ log (run lib a w2).2 = (log w2 ++ advisory a ++ entries)%list.
Proof.
  intros Hi Ho.
  pose proof (check_formats_runs a w1) as Hc1.
  pose proof (check_formats_runs a w2) as Hc2.
  set (adv := advisory a) in *.
  destruct (load_file_frame (input_file a) (input_format a)
              (add_log adv w1) (add_log adv w2) Hi)
    as (o & el & Hl1 & Hl2).
  destruct o as [v|e|s].
  - destruct (write_file_frame v (output_file a) (output_format a)
                (add_log el (add_log adv w1)) (add_log el (add_log adv w2)) Ho)
      as (o & ew & [(n & Hw1 & Hw2)|[Hw1 Hw2]]).
    all: destruct o as [[]|e|s];
      try (by apply write_file_no_exit in Hw1).
    all: first
      [ rewrite (run_success a w1 v _ _
                   ltac:(rewrite Hc1; exact Hl1) Hw1),
                (run_success a w2 v _ _
                   ltac:(rewrite Hc2; exact Hl2) Hw2)
      | rewrite (run_write_raises a w1 v _ _ _
                   ltac:(rewrite Hc1; exact Hl1) Hw1),
                (run_write_raises a w2 v _ _ _
                   ltac:(rewrite Hc2; exact Hl2) Hw2) ].
    all: simpl; rewrite ?lookup_insert_eq; eexists _, _.
    all: repeat split; try done.
    all: rewrite <- !app_assoc; reflexivity.
  - rewrite (run_load_raises a w1 e _ ltac:(rewrite Hc1; exact Hl1)),
      (run_load_raises a w2 e _ ltac:(rewrite Hc2; exact Hl2)).
    simpl. eexists _, _. repeat split; try done.
    all: rewrite <- !app_assoc; reflexivity.
  - by apply load_file_no_exit in Hl1.
Qed.

End Views.

(** ** Exit codes *)

(** C1. [main] ends with status 0 when loading and writing both succeed.  It
    ends with status 1 after logging the parse error when the parser of the
    declared format rejects the input file, with status 1 after logging
    "Input file not found" when the input path does not exist, and with
    status 1 whenever [load_file] or [write_file] raises anything else; no
    other status occurs. *)
Theorem main_exit_codes (lib : codecs) (a : args) (w : world) :
  let w0 := (check_formats a w).2 in
  (forall v w1 w2,
     load_file lib (input_file a) (input_format a) w0 = (Return v, w1) ->
     write_file lib v (output_file a) (output_format a) w1 = (Return tt, w2) ->
     (run lib a w).1 = 0%Z)
  /\ (forall f wr c msg,
        input_format a = tag f ->
        files w !! input_file a = Some (File true wr c) ->
        parse_fails lib f c msg ->
        run lib a w = (1%Z, add_log [(ERROR, msg)] w0))
  /\ (files w !! input_file a = None ->
      run lib a w
      = (1%Z, add_log [(ERROR, "Input file not found: " ++ input_file a)] w0))
  /\ (forall e w1,
        load_file lib (input_file a) (input_format a) w0 = (Raise e, w1) ->
        (run lib a w).1 = 1%Z)
  /\ (forall v w1 e w2,
        load_file lib (input_file a) (input_format a) w0 = (Return v, w1) ->
        write_file lib v (output_file a) (output_format a) w1 = (Raise e, w2) ->
        (run lib a w).1 = 1%Z)
  /\ ((run lib a w).1 = 0%Z \/ (run lib a w).1 = 1%Z).
Proof.
  intros w0. repeat split.
  - intros v w1 w2 Hl Hw. by rewrite (run_success _ _ _ _ _ _ Hl Hw).
  - intros f wr c msg Hf Hp (e & He & Hc & ->).
    assert (Hp0 : files w0 !! input_file a = Some (File true wr c)).
    { subst w0. by rewrite check_formats_runs. }
    pose proof (load_file_readable lib _ f _ _ _ Hp0) as Hl.
    unfold load_via in Hl.
    rewrite He in Hl. unfold translate in Hl. rewrite Hc in Hl.
    simpl in Hl. unfold load_report in Hl.
    rewrite !isinstance_ValueError in Hl. simpl in Hl.
    rewrite <- Hf in Hl. rewrite (run_load_raises _ _ _ _ _ Hl).
    unfold main_report. rewrite !isinstance_ValueError. simpl.
    by rewrite add_log_nil.
  - intros Hp.
    assert (Hp0 : files w0 !! input_file a = None).
    { subst w0. by rewrite check_formats_runs. }
    rewrite (run_load_raises _ _ _ _ _
               (load_file_missing lib _ (input_format a) _ Hp0)).
    by rewrite add_log_nil.
  - intros e w1 Hl. by rewrite (run_load_raises _ _ _ _ _ Hl).
  - intros v w1 e w2 Hl Hw. by rewrite (run_write_raises _ _ _ _ _ _ _ Hl Hw).
  - destruct (load_file lib (input_file a) (input_format a) w0)
      as [[v|e|s] w1] eqn:Hl.
    + destruct (write_file lib v (output_file a) (output_format a) w1)
        as [[[]|e|s] w2] eqn:Hw.
      * left. by rewrite (run_success _ _ _ _ _ _ Hl Hw).
      * right. by rewrite (run_write_raises _ _ _ _ _ _ _ Hl Hw).
      * by apply write_file_no_exit in Hw.
    + right. by rewrite (run_load_raises _ _ _ _ _ Hl).
    + by apply load_file_no_exit in Hl.
Qed.

Lemma main_exit_codes_witness :
  (run Sample.pylib (mk_args "config.json" "out.yaml" "json" "yaml")
     Sample.boot).1 = 0%Z
  /\ (run Sample.pylib (mk_args "broken.json" "out.yaml" "json" "yaml")
        Sample.boot).1 = 1%Z
  /\ (run Sample.pylib (mk_args "nope.json" "out.yaml" "json" "yaml")
        Sample.boot).1 = 1%Z.
Proof.
  split; [|split].
  - eapply (proj1 (main_exit_codes Sample.pylib
                     (mk_args "config.json" "out.yaml" "json" "yaml")
                     Sample.boot)); reflexivity.
  - rewrite (proj1 (proj2 (main_exit_codes Sample.pylib
                     (mk_args "broken.json" "out.yaml" "json" "yaml")
                     Sample.boot)) Json true "{"
               ("Error parsing JSON file: Expecting property name enclosed in double quotes: line 1 column 2 (char 1)"));
      [reflexivity|reflexivity|reflexivity|].
    eexists. repeat split; reflexivity.
  - rewrite (proj1 (proj2 (proj2 (main_exit_codes Sample.pylib
                     (mk_args "nope.json" "out.yaml" "json" "yaml")
                     Sample.boot)))); reflexivity.
Defined.

(** ** Errors of the loader *)

(** C6, as the claim states it, fails: the sample file [locked.json] exists
    and may not be read; [load_file] raises an error that is not of the
    class of the not-found error, and logs nothing. *)
Lemma unreadable_is_not_not_found :
  files Sample.boot !! "locked.json"
  = Some (File false true Sample.ab_json_compact)
  /\ exists e,
       load_file Sample.pylib "locked.json" "json" Sample.boot
       = (Raise e, Sample.boot)
       /\ exn_class_of e = PermissionError
       /\ isinstance e FileNotFoundError = false.
Proof. split; [reflexivity|]. eexists. repeat split. Qed.

(** C6, amended. For an input path that exists and may not be read,
    [load_file] lets the [PermissionError] of [open] through without logging
    it; this is an [OSError] that is not a [FileNotFoundError], and [main]
    reports it as an unexpected error and ends with status 1. *)
Theorem load_file_permission_denied (lib : codecs) (a : args) (w : world)
    (wr : bool) (c : string) :
  files w !! input_file a = Some (File false wr c) ->
  exists e,
    load_file lib (input_file a) (input_format a) w = (Raise e, w)
    /\ exn_class_of e = PermissionError
    /\ isinstance e OSError = true
    /\ isinstance e FileNotFoundError = false
    /\ run lib a w
       = (1%Z,
          add_log [(ERROR, "An unexpected error occurred: " ++ str e)]
            (check_formats a w).2).
Proof.
  intros Hp. eexists (mk_exn _ _). split; [|repeat split].
  - by apply load_file_unreadable with (wr := wr) (c := c).
  - assert (Hp0 : files (check_formats a w).2 !! input_file a
                  = Some (File false wr c)).
    { by rewrite check_formats_runs. }
    by rewrite (run_load_raises _ _ _ _ _
                  (load_file_unreadable lib _ (input_format a) _ _ _ Hp0)).
Qed.

Lemma load_file_permission_denied_witness :
  exists e,
    load_file Sample.pylib "locked.json" "json" Sample.boot
    = (Raise e, Sample.boot)
    /\ exn_class_of e = PermissionError
    /\ isinstance e OSError = true
    /\ isinstance e FileNotFoundError = false
    /\ run Sample.pylib (mk_args "locked.json" "out.yaml" "json" "yaml")
         Sample.boot
       = (1%Z,
          add_log [(ERROR, "An unexpected error occurred: " ++ str e)]
            Sample.boot).
Proof.
  exact (load_file_permission_denied Sample.pylib
           (mk_args "locked.json" "out.yaml" "json" "yaml") Sample.boot
           true Sample.ab_json_compact eq_refl).
Defined.

(** ** Format tags outside the supported set *)

(** C7. For a format tag outside [choices], [load_file] and [write_file]
    always fail; each opens its file before it looks at the tag, and once
    the file is open the failure is the unsupported-format [ValueError],
    logged at ERROR ([write_file] leaves the output file empty).  For a tag
    of [choices] the [else] branch is not taken: the chain selects the
    branch of that format, and the result of either function is the result
    of that branch. *)
Theorem unsupported_format (lib : codecs) (fmt : string) :
  (fmt ∉ choices ->
   (forall p w, exists e w', load_file lib p fmt w = (Raise e, w'))
   /\ (forall p w wr c,
         files w !! p = Some (File true wr c) ->
         load_file lib p fmt w
         = (Raise (mk_exn ValueError ("Unsupported input format: " ++ fmt)),
            add_log [(ERROR, "Unsupported input format: " ++ fmt)] w))
   /\ (forall v p w, exists e w', write_file lib v p fmt w = (Raise e, w'))
   /\ (forall v p w r,
         open_mode (files w !! p) = Some r ->
         write_file lib v p fmt w
         = (Raise (mk_exn ValueError ("Unsupported output format: " ++ fmt)),
            add_log [(ERROR, "Unsupported output format: " ++ fmt)]
              (set_file p (File r true "") w))))
  /\ (fmt ∈ choices ->
      exists f,
        fmt = tag f /\ select fmt = Some f
        /\ (forall p w wr c,
              files w !! p = Some (File true wr c) ->
              load_file lib p fmt w = load_via lib f p c w)
        /\ (forall v p w r,
              open_mode (files w !! p) = Some r ->
              write_file lib v p fmt w = write_via lib f v p r w)).
Proof.
  split.
  - intros Hn. assert (Hs : select fmt = None).
    { apply eq_None_not_Some. by rewrite <- select_choices. }
    split; [|split; [|split]].
    + intros p w. destruct (files w !! p) as [[[] wr c|]|] eqn:Hp.
      * rewrite (load_file_unsupported _ _ _ _ _ _ Hs Hp). by eexists _, _.
      * rewrite (load_file_unreadable _ _ _ _ _ _ Hp). by eexists _, _.
      * rewrite (load_file_directory _ _ _ _ Hp). by eexists _, _.
      * rewrite (load_file_missing _ _ _ _ Hp). by eexists _, _.
    + intros p w wr c Hp. by apply load_file_unsupported with (wr := wr) (c := c).
    + intros v p w. destruct (open_mode (files w !! p)) as [r|] eqn:Hm.
      * rewrite (write_file_unsupported _ _ _ _ _ _ Hs Hm). by eexists _, _.
      * destruct (write_file_refused lib v p fmt w Hm) as (e & _ & ->).
        by eexists _, _.
    + intros v p w r Hm. by apply write_file_unsupported.
  - intros [f Hf]%select_choices. exists f.
    pose proof (select_Some _ _ Hf) as ->. repeat split; [done|..].
    + intros p w wr c Hp. by apply load_file_readable with (wr := wr).
    + intros v p w r Hm. by apply write_file_opened.
Qed.

Lemma unsupported_format_witness :
  load_file Sample.pylib "config.json" "ini" Sample.boot
  = (Raise (mk_exn ValueError "Unsupported input format: ini"),
     add_log [(ERROR, "Unsupported input format: ini")] Sample.boot)
  /\ write_file Sample.pylib Sample.ab "out.ini" "ini" Sample.boot
     = (Raise (mk_exn ValueError "Unsupported output format: ini"),
        add_log [(ERROR, "Unsupported output format: ini")]
          (set_file "out.ini" (File true true "") Sample.boot))
  /\ exists f, "json" = tag f /\ select "json" = Some f.
Proof.
  assert (Hn : "ini" ∉ choices).
  { apply (bool_decide_unpack _). vm_compute. exact I. }
  assert (Hy : "json" ∈ choices).
  { apply (bool_decide_unpack _). vm_compute. exact I. }
  destruct (unsupported_format Sample.pylib "ini") as [Hout _].
  destruct (Hout Hn) as (_ & Hl & _ & Hw).
  destruct (unsupported_format Sample.pylib "json") as [_ Hin].
  destruct (Hin Hy) as (f & Ht & Hs & _).
  split; [|split].
  - exact (Hl "config.json" Sample.boot true Sample.ab_json_compact eq_refl).
  - exact (Hw Sample.ab "out.ini" Sample.boot true eq_refl).
  - by exists f.
Defined.

(** ** The writer *)

(** C2, as the claim states it, fails.  The empty list is a Generic Value
    with a list at the top: [toml.dump] writes the empty document for it,
    and [write_file] with target [toml] returns. *)
Lemma toml_root_not_rejected :
  generic (VList []) = true /\ scalar_or_list (VList []) = true
  /\ write_file Sample.pylib (VList []) "out.toml" "toml" Sample.boot
     = (Return tt, set_file "out.toml" (File true true "") Sample.boot).
Proof. repeat split. Qed.

(** C2, amended. For a Generic Value with a bare scalar or a list at the top
    and an output file that opens, [write_file] returns exactly when the
    serializer of the target returns, for each of the three targets: it adds
    no check of the shape of the root and no failure of its own.  When it
    returns, the file holds the serializer's text; when the serializer
    raises, it logs at ERROR and raises. *)
Theorem write_file_root_shapes (lib : codecs) (v : value) (p : string)
    (w : world) (r : bool) :
  generic v = true ->
  scalar_or_list v = true ->
  open_mode (files w !! p) = Some r ->
  forall f,
    ((write_file lib v p (tag f) w).1 = Return tt
     <-> failure (serializer lib f v) = None)
    /\ (failure (serializer lib f v) = None ->
        write_file lib v p (tag f) w
        = (Return tt,
           set_file p (File r true (text (serializer lib f v))) w))
    /\ (forall e,
          failure (serializer lib f v) = Some e ->
          exists e' w' msg,
            write_file lib v p (tag f) w = (Raise e', w')
            /\ log w' = (log w ++ [(ERROR, msg)])%list).
Proof.
  intros _ _ Hm f. rewrite (write_file_opened _ _ _ f _ _ Hm).
  unfold write_via. simpl.
  destruct (failure (serializer lib f v)) as [e|]; simpl.
  - split; [done|]. split; [done|]. intros e0 _. unfold write_report.
    destruct (isinstance _ ValueError); by eexists _, _, _.
  - split; [done|]. split; [done|]. done.
Qed.

Lemma write_file_root_shapes_witness :
  (write_file Sample.pylib (VInt 5) "out.yaml" "yaml" Sample.boot).1
  = Return tt
  /\ (write_file Sample.pylib (VInt 5) "out.json" "json" Sample.boot).1
     = Return tt
  /\ write_file Sample.pylib (VList []) "out.json" "json" Sample.boot
     = (Return tt, set_file "out.json" (File true true "[]") Sample.boot)
  /\ (write_file Sample.pylib (VList []) "out.toml" "toml" Sample.boot).1
     = Return tt.
Proof.
  split; [|split; [|split]].
  - apply (proj1 (write_file_root_shapes Sample.pylib (VInt 5) "out.yaml"
                    Sample.boot true eq_refl eq_refl eq_refl Yaml)).
    reflexivity.
  - apply (proj1 (write_file_root_shapes Sample.pylib (VInt 5) "out.json"
                    Sample.boot true eq_refl eq_refl eq_refl Json)).
    reflexivity.
  - apply (proj1 (proj2 (write_file_root_shapes Sample.pylib (VList [])
                           "out.json" Sample.boot true eq_refl eq_refl
                           eq_refl Json))).
    reflexivity.
  - apply (proj1 (write_file_root_shapes Sample.pylib (VList []) "out.toml"
                    Sample.boot true eq_refl eq_refl eq_refl Toml)).
    reflexivity.
Defined.

(** C4, as the claim states it, fails.  [keys.yaml] holds a mapping with the
    integer key 1, which JSON cannot represent.  [load_file] returns it, and
    [write_file] with target [json] returns without logging anything; the
    document it wrote is that of another value, the mapping with the string
    key "1". *)
Lemma int_key_coerced :
  load_file Sample.pylib "keys.yaml" "yaml" Sample.boot
  = (Return Sample.int_key, Sample.boot)
  /\ exists w',
       write_file Sample.pylib Sample.int_key "keys.json" "json" Sample.boot
       = (Return tt, w')
       /\ log w' = []
       /\ load_file Sample.pylib "keys.json" "json" w'
          = (Return Sample.str_key, w')
       /\ Sample.str_key <> Sample.int_key.
Proof.
  split; [reflexivity|]. eexists. repeat split. discriminate.
Qed.

(** C4, amended. [write_file] accepts every value, so every tree [load_file]
    returns, for each of the three targets, and hands it to the serializer
    as it is.  When it returns, the serializer has accepted the value and
    the file holds exactly the text the serializer wrote; when the
    serializer raises, [write_file] raises; whenever it raises it has logged
    at ERROR; it never exits.  Whether a value the target format cannot
    represent is refused or written in another form is the serializer's
    doing. *)
Theorem write_file_outcome (lib : codecs) (v : value) (p : string)
    (f : format) (w : world) :
  (forall w',
     write_file lib v p (tag f) w = (Return tt, w') ->
     failure (serializer lib f v) = None
     /\ exists r,
          w' = set_file p (File r true (text (serializer lib f v))) w)
  /\ (forall e w',
        write_file lib v p (tag f) w = (Raise e, w') ->
        exists msg, log w' = (log w ++ [(ERROR, msg)])%list)
  /\ (forall e,
        failure (serializer lib f v) = Some e ->
        exists e' w', write_file lib v p (tag f) w = (Raise e', w'))
  /\ (forall s w', write_file lib v p (tag f) w <> (Exit s, w')).
Proof.
  destruct (open_mode (files w !! p)) as [r|] eqn:Hm.
  - rewrite (write_file_opened _ _ _ f _ _ Hm). unfold write_via. simpl.
    destruct (failure (serializer lib f v)) as [e|] eqn:He.
    + split; [done|]. split; [|split; [|done]].
      * intros e0 w0 [= <- <-]. unfold write_report. simpl.
        destruct (isinstance _ ValueError); by eexists.
      * intros e0 _. by eexists _, _.
    + split; [|done]. intros w0 [= <-]. split; [done|]. by exists r.
  - destruct (write_file_refused lib v p (tag f) w Hm) as (e & _ & ->).
    split; [done|]. split; [|split; [|done]].
    + intros e0 w0 [= <- <-]. by eexists.
    + intros e0 _. by eexists _, _.
Qed.

Lemma write_file_outcome_witness :
  failure (serializer Sample.pylib Yaml Sample.ab) = None
  /\ exists r,
       set_file "out.yaml" (File true true Sample.ab_yaml) Sample.boot
       = set_file "out.yaml"
           (File r true (text (serializer Sample.pylib Yaml Sample.ab)))
           Sample.boot.
Proof.
  apply (proj1 (write_file_outcome Sample.pylib Sample.ab "out.yaml" Yaml
                  Sample.boot)).
  reflexivity.
Defined.

(** ** YAML input *)

(** C9, as the claim states it, fails.  [date.yaml] holds a plain scalar that
    the safe schema reads as a timestamp: [load_file] returns a date, which
    is none of null, boolean, number, string, sequence and mapping. *)
Lemma safe_loader_returns_date :
  load_file Sample.pylib "date.yaml" "yaml" Sample.boot
  = (Return (VDate 2001 12 14), Sample.boot)
  /\ generic (VDate 2001 12 14) = false.
Proof. split; reflexivity. Qed.

(** C9, amended. On a YAML input file, when [SafeLoader] rejects the document
    with a [YAMLError], as it does for a tag outside the safe schema,
    [load_file] logs and raises the [ValueError] of the parse error and
    returns no value.  YAML is read through [SafeLoader] and through no
    other loader: [load_file] returns a value exactly when [SafeLoader]
    builds it, and gives the same whatever the other loaders and the other
    libraries would do. *)
Theorem yaml_safe_loading (lib : codecs) (p : string) (w : world)
    (wr : bool) (c : string) :
  files w !! p = Some (File true wr c) ->
  (forall e,
     yaml_load lib SafeLoader c = Err e ->
     isinstance e YAMLError = true ->
     load_file lib p "yaml" w
     = (Raise (mk_exn ValueError ("Error parsing YAML file: " ++ str e)),
        add_log [(ERROR, "Error parsing YAML file: " ++ str e)] w))
  /\ (forall v,
        load_file lib p "yaml" w = (Return v, w)
        <-> yaml_load lib SafeLoader c = Ok v)
  /\ (forall lib',
        (forall s, yaml_load lib' SafeLoader s = yaml_load lib SafeLoader s) ->
        load_file lib' p "yaml" w = load_file lib p "yaml" w).
Proof.
  intros Hp.
  assert (Hl : forall l, load_file l p "yaml" w = load_via l Yaml p c w).
  { intros l. exact (load_file_readable l p Yaml w wr c Hp). }
  split; [|split].
  - intros e He Hi. rewrite Hl. unfold load_via. simpl. rewrite He.
    unfold translate. simpl. rewrite Hi.
    unfold load_report. by rewrite !isinstance_ValueError.
  - intros v. rewrite Hl. unfold load_via. simpl.
    destruct (yaml_load lib SafeLoader c) as [v0|e]; split; try done.
    + by intros [= ->].
    + by intros [= ->].
  - intros lib' Hsame. rewrite !Hl. unfold load_via. simpl.
    by rewrite Hsame.
Qed.

Lemma yaml_safe_loading_witness :
  load_file Sample.pylib "tagged.yaml" "yaml" Sample.boot
  = (Raise (mk_exn ValueError
              "Error parsing YAML file: could not determine a constructor for the tag 'tag:yaml.org,2002:python/name:os.system'"),
     add_log
       [(ERROR,
         "Error parsing YAML file: could not determine a constructor for the tag 'tag:yaml.org,2002:python/name:os.system'")]
       Sample.boot)
  /\ load_file Sample.pylib "date.yaml" "yaml" Sample.boot
     = (Return (VDate 2001 12 14), Sample.boot).
Proof.
  split.
  - apply (proj1 (yaml_safe_loading Sample.pylib "tagged.yaml" Sample.boot
                    true "!!python/name:os.system" eq_refl)
             (mk_exn YAMLError
                "could not determine a constructor for the tag 'tag:yaml.org,2002:python/name:os.system'"));
      reflexivity.
  - apply (proj1 (proj2 (yaml_safe_loading Sample.pylib "date.yaml"
                           Sample.boot true "2001-12-14" eq_refl))).
    reflexivity.
Defined.

(** C8. For an empty input file read as YAML, for which [SafeLoader] gives
    [None]: [load_file] returns [None], which is not a mapping; and for the
    target [yaml] or [json], whose serializer accepts [None], [write_file]
    returns once the output file opens, and the run ends with status 0. *)
Theorem empty_yaml_runs (lib : codecs) (inp out : string) (f : format)
    (w : world) (wr r : bool) :
  files w !! inp = Some (File true wr "") ->
  yaml_load lib SafeLoader "" = Ok VNone ->
  failure (serializer lib f VNone) = None ->
  open_mode (files w !! out) = Some r ->
  load_file lib inp "yaml" w = (Return VNone, w)
  /\ is_mapping VNone = false
  /\ write_file lib VNone out (tag f) w
     = (Return tt,
        set_file out (File r true (text (serializer lib f VNone))) w)
  /\ (run lib (mk_args inp out "yaml" (tag f)) w).1 = 0%Z.
Proof.
  intros Hp Hy Hf Hm.
  assert (Hw : forall w0,
             files w0 = files w ->
             write_file lib VNone out (tag f) w0
             = (Return tt,
                set_file out (File r true (text (serializer lib f VNone))) w0)).
  { intros w0 H0. rewrite (write_file_opened lib VNone out f w0 r).
    - unfold write_via. simpl. by rewrite Hf.
    - by rewrite H0. }
  assert (Hl : forall w0,
             files w0 = files w ->
             load_file lib inp "yaml" w0 = (Return VNone, w0)).
  { intros w0 H0.
    pose proof (load_file_readable lib inp Yaml w0 wr "") as H. simpl in H.
    rewrite H; [|by rewrite H0]. unfold load_via. simpl. by rewrite Hy. }
  split; [by apply Hl|]. split; [done|]. split; [by apply Hw|].
  set (a := mk_args inp out "yaml" (tag f)).
  assert (H0 : files (check_formats a w).2 = files w).
  { by rewrite check_formats_runs. }
  by rewrite (run_success lib a w VNone _ _ (Hl _ H0) (Hw _ H0)).
Qed.

Lemma empty_yaml_runs_witness :
  load_file Sample.pylib "empty.yaml" "yaml" Sample.boot
  = (Return VNone, Sample.boot)
  /\ is_mapping VNone = false
  /\ write_file Sample.pylib VNone "out.json" "json" Sample.boot
     = (Return tt, set_file "out.json" (File true true "null") Sample.boot)
  /\ (run Sample.pylib (mk_args "empty.yaml" "out.json" "yaml" "json")
        Sample.boot).1 = 0%Z.
Proof.
  apply (empty_yaml_runs Sample.pylib "empty.yaml" "out.json" Json Sample.boot
           true true); reflexivity.
Defined.

(** ** Conversions *)








Lemma sample_expressible : expressible Sample.pylib Sample.ab.
Proof.
  intros [].
  - by exists Sample.ab_yaml.
  - by exists Sample.ab_json.
  - by exists Sample.ab_toml.
Defined.

(** * Further properties of the converter *)

(** ** Case analyses *)

Section Cases.

Variable lib : codecs.

(** [load_file] by what its path holds and what the chain selects. *)
Lemma load_file_cases p fmt w :
  match files w !! p with
  | Some (File true _ c) =>
      match select fmt with
      | Some f => load_file lib p fmt w = load_via lib f p c w
      | None =>
          load_file lib p fmt w
          = (Raise (mk_exn ValueError ("Unsupported input format: " ++ fmt)),
             add_log [(ERROR, "Unsupported input format: " ++ fmt)] w)
      end
  | Some (File false _ _) =>
      load_file lib p fmt w
      = (Raise (mk_exn PermissionError
                  (errno_msg "[Errno 13] Permission denied" p)), w)
  | Some Dir =>
      load_file lib p fmt w
      = (Raise (mk_exn IsADirectoryError
                  (errno_msg "[Errno 21] Is a directory" p)), w)
  | None =>
      load_file lib p fmt w
      = (Raise (mk_exn FileNotFoundError
                  (errno_msg "[Errno 2] No such file or directory" p)),
         add_log [(ERROR, "Input file not found: " ++ p)] w)
  end.
Proof.
  destruct (files w !! p) as [[[] wr c|]|] eqn:Hp.
  - destruct (select fmt) as [f|] eqn:Hf.
    + apply select_Some in Hf as ->. by apply load_file_readable with (wr := wr).
    + by apply load_file_unsupported with (wr := wr) (c := c).
  - by apply load_file_unreadable with (wr := wr) (c := c).
  - by apply load_file_directory.
  - by apply load_file_missing.
Qed.

(** [write_file] by what [open] does and what the chain selects. *)
Lemma write_file_cases v p fmt w :
  match open_mode (files w !! p) with
  | Some r =>
      match select fmt with
      | Some f => write_file lib v p fmt w = write_via lib f v p r w
      | None =>
          write_file lib v p fmt w
          = (Raise (mk_exn ValueError ("Unsupported output format: " ++ fmt)),
             add_log [(ERROR, "Unsupported output format: " ++ fmt)]
               (set_file p (File r true "") w))
      end
  | None =>
      exists e,
        (exn_class_of e = PermissionError \/ exn_class_of e = IsADirectoryError)
        /\ write_file lib v p fmt w
           = (Raise e,
              add_log [(ERROR, "An unexpected error occurred: " ++ str e)] w)
  end.
Proof.
  destruct (open_mode (files w !! p)) as [r|] eqn:Hm.
  - destruct (select fmt) as [f|] eqn:Hf.
    + apply select_Some in Hf as ->. by apply write_file_opened.
    + by apply write_file_unsupported.
  - unfold write_file, open_w. step_py.
    destruct (files w !! p) as [[r [] c|]|]; try discriminate; simpl.
    all: eexists (mk_exn _ _); split; [|reflexivity]; simpl; tauto.
Qed.

Lemma translate_not_instance how e :
  how.1 <> ValueError -> how.1 <> Exception ->
  isinstance (translate how e) how.1 = false.
Proof.
  intros Hv He. unfold translate.
  destruct (isinstance e how.1) eqn:Hi; [|done].
  rewrite isinstance_ValueError.
  rewrite !bool_decide_eq_false_2; done.
Qed.

(** The log after [load_file]. *)
Lemma load_file_log p fmt w o w' :
  load_file lib p fmt w = (o, w') ->
  files w' = files w
  /\ match o with
     | Return _ => log w' = log w
     | Raise e => log w' = (log w ++ load_report p e)%list
     | Exit _ => False
     end.
Proof.
  pose proof (load_file_cases p fmt w) as H.
  destruct (files w !! p) as [[[] wr c|]|].
  - destruct (select fmt) as [f|].
    + rewrite H. unfold load_via. destruct (parser lib f c); by intros [= <- <-].
    + rewrite H. by intros [= <- <-].
  - rewrite H. intros [= <- <-]. split; [done|].
    unfold load_report. simpl. by rewrite app_nil_r.
  - rewrite H. intros [= <- <-]. split; [done|].
    unfold load_report. simpl. by rewrite app_nil_r.
  - rewrite H. by intros [= <- <-].
Qed.

(** The log after [write_file]. *)
Lemma write_file_log v p fmt w o w' :
  write_file lib v p fmt w = (o, w') ->
  match o with
  | Return _ => log w' = log w
  | Raise e => log w' = (log w ++ write_report e)%list
  | Exit _ => False
  end.
Proof.
  pose proof (write_file_cases v p fmt w) as H.
  destruct (open_mode (files w !! p)) as [r|].
  - destruct (select fmt) as [f|].
    + rewrite H. unfold write_via. simpl.
      destruct (failure (serializer lib f v)); by intros [= <- <-].
    + rewrite H. by intros [= <- <-].
  - destruct H as (e & Hc & ->). intros [= <- <-].
    unfold write_report, isinstance. simpl.
    by destruct Hc as [-> | ->].
Qed.

(** The files after [write_file]. *)
Lemma write_file_files v p fmt w o w' :
  write_file lib v p fmt w = (o, w') ->
  match open_mode (files w !! p) with
  | Some r =>
      files w'
      = <[p := File r true
                 match select fmt with
                 | Some f => text (serializer lib f v)
                 | None => ""
                 end]> (files w)
  | None => files w' = files w
  end.
Proof.
  pose proof (write_file_cases v p fmt w) as H.
  destruct (open_mode (files w !! p)) as [r|].
  - destruct (select fmt) as [f|].
    + rewrite H. unfold write_via. simpl.
      destruct (failure (serializer lib f v)); by intros [= <- <-].
    + rewrite H. by intros [= <- <-].
  - destruct H as (e & _ & ->). by intros [= <- <-].
Qed.

(** The files after [write_file], path by path. *)
Lemma write_file_lookups v p fmt w o w' :
  write_file lib v p fmt w = (o, w') ->
  (forall q, q <> p -> files w' !! q = files w !! q)
  /\ match open_mode (files w !! p) with
     | Some r =>
         files w' !! p
         = Some (File r true
                   match select fmt with
                   | Some f => text (serializer lib f v)
                   | None => ""
                   end)
     | None => files w' = files w
     end.
Proof.
  intros H%write_file_files.
  destruct (open_mode (files w !! p)) as [r|]; rewrite H.
  - split; [|apply lookup_insert_eq].
    intros q Hq. by apply lookup_insert_ne.
  - done.
Qed.

(** [load_file] gives the same on worlds with the same files. *)
Lemma load_file_same_files p fmt w w0 o w1 :
  files w0 = files w ->
  load_file lib p fmt w = (o, w1) ->
  exists w2, load_file lib p fmt w0 = (o, w2).
Proof.
  intros Hf Hl.
  destruct (load_file_frame lib p fmt w w0) as (o' & el & H1 & H2).
  { by rewrite Hf. }
  rewrite H1 in Hl. injection Hl as -> _. by eexists.
Qed.

End Cases.

(** ** What the loader and the writer touch *)

(** X1. [load_file] changes no file, whatever it is given.  When it returns,
    the log is as it was.  When it raises, it has logged one ERROR record if
    the exception is a [FileNotFoundError] ("Input file not found: " and the
    path) or a [ValueError] (its text), and nothing for any other exception;
    it never exits. *)
Theorem load_file_read_only (lib : codecs) (p fmt : string) (w w' : world)
    (o : outcome value) :
  load_file lib p fmt w = (o, w') ->
  files w' = files w
  /\ match o with
     | Return _ => log w' = log w
     | Raise e => log w' = (log w ++ load_report p e)%list
     | Exit _ => False
     end.
Proof. apply load_file_log. Qed.

Lemma load_file_read_only_witness :
  files (load_file Sample.pylib "broken.json" "json" Sample.boot).2
  = files Sample.boot
  /\ log (load_file Sample.pylib "broken.json" "json" Sample.boot).2
     = [(ERROR,
         "Error parsing JSON file: Expecting property name enclosed in double quotes: line 1 column 2 (char 1)")].
Proof.
  exact (load_file_read_only Sample.pylib "broken.json" "json" Sample.boot _
           (Raise _) eq_refl).
Defined.

(** X2. The decode error of a library never leaves [load_file]: with the tag
    of format [f], the exception [load_file] raises is never an instance of
    the decode error class of [f] ([YAMLError], [JSONDecodeError],
    [TomlDecodeError]); when the parser raised one, a plain [ValueError]
    with the prefixed text is raised in its place. *)
Theorem load_file_hides_decode_errors (lib : codecs) (p : string) (f : format)
    (w w' : world) (e : exn) :
  load_file lib p (tag f) w = (Raise e, w') ->
  isinstance e (decode_error f).1 = false
  /\ forall wr c e0,
       files w !! p = Some (File true wr c) ->
       parser lib f c = Err e0 ->
       isinstance e0 (decode_error f).1 = true ->
       e = mk_exn ValueError ((decode_error f).2 ++ str e0).
Proof.
  pose proof (load_file_cases lib p (tag f) w) as H.
  rewrite select_tag in H.
  destruct (files w !! p) as [[[] wr c|]|].
  - rewrite H. unfold load_via.
    destruct (parser lib f c) as [v|e0] eqn:Hp0; [done|].
    intros [= <- <-]. split.
    + apply translate_not_instance; by destruct f.
    + intros wr' c' e1 [= <- <-] He1 Hi. rewrite Hp0 in He1.
      injection He1 as <-. unfold translate. by rewrite Hi.
  - rewrite H. intros [= <- <-]. split; [by destruct f|]. by intros ? ? ? [=].
  - rewrite H. intros [= <- <-]. split; [by destruct f|]. by intros ? ? ? [=].
  - rewrite H. intros [= <- <-]. split; [by destruct f|]. by intros ? ? ? [=].
Qed.

Lemma load_file_hides_decode_errors_witness :
  isinstance
    (mk_exn ValueError
       "Error parsing JSON file: Expecting property name enclosed in double quotes: line 1 column 2 (char 1)")
    JSONDecodeError = false.
Proof.
  exact (proj1 (load_file_hides_decode_errors Sample.pylib "broken.json" Json
                  Sample.boot _ _ eq_refl)).
Defined.

(** X3. What leaves [write_file] when the serializer raises.  With the tag
    [yaml] a [YAMLError], and with the tag [json] a [TypeError], never
    leaves [write_file]: such an exception of the serializer is replaced by
    a plain [ValueError] with the prefixed text.  With the tag [toml], once
    the file is open, whatever [toml.dump] raised is replaced by the
    [AttributeError] of the name [toml.TomlEncodeError], which the module
    does not have; so a TOML write never fails with a [ValueError]. *)
Theorem write_file_hides_encode_errors (lib : codecs) (v : value)
    (p : string) (f : format) (w w' : world) (e : exn) :
  write_file lib v p (tag f) w = (Raise e, w') ->
  match f with
  | Yaml =>
      isinstance e YAMLError = false
      /\ forall e0,
           is_Some (open_mode (files w !! p)) ->
           failure (yaml_dump lib v 2) = Some e0 ->
           isinstance e0 YAMLError = true ->
           e = mk_exn ValueError ("Error writing YAML file: " ++ str e0)
  | Json =>
      isinstance e TypeError = false
      /\ forall e0,
           is_Some (open_mode (files w !! p)) ->
           failure (json_dump lib v 2) = Some e0 ->
           isinstance e0 TypeError = true ->
           e = mk_exn ValueError ("Error writing JSON file: " ++ str e0)
  | Toml =>
      isinstance e ValueError = false
      /\ (is_Some (open_mode (files w !! p)) ->
          e = mk_exn AttributeError
                "module 'toml' has no attribute 'TomlEncodeError'")
  end.
Proof.
  pose proof (write_file_cases lib v p (tag f) w) as H.
  rewrite select_tag in H.
  destruct (open_mode (files w !! p)) as [r|].
  - rewrite H. unfold write_via. simpl.
    destruct f; simpl;
      (destruct (failure _) as [e0|] eqn:Hf0; [|done]);
      intros [= <- <-].
    + split; [by apply (translate_not_instance (YAMLError, _))|].
      intros e1 _ [= <-] Hi. unfold translate. simpl. by rewrite Hi.
    + split; [by apply (translate_not_instance (TypeError, _))|].
      intros e1 _ [= <-] Hi. unfold translate. simpl. by rewrite Hi.
    + done.
  - destruct H as (e' & Hc & ->). intros [= <- <-].
    unfold isinstance.
    destruct f; (split; [by destruct Hc as [-> | ->]|]);
      first [by intros [? [=]] | by intros ? [? [=]]].
Qed.

Lemma write_file_hides_encode_errors_witness :
  isinstance
    (mk_exn ValueError
       "Error writing JSON file: Object of type date is not JSON serializable")
    TypeError = false
  /\ (write_file Sample.pylib (VInt 5) "out.toml" "toml" Sample.boot).1
     = Raise (mk_exn AttributeError
                "module 'toml' has no attribute 'TomlEncodeError'").
Proof.
  split.
  - exact (proj1 (write_file_hides_encode_errors Sample.pylib
                    (VDate 2001 12 14) "out.json" Json Sample.boot _ _
                    eq_refl)).
  - pose proof (write_file_hides_encode_errors Sample.pylib (VInt 5)
                  "out.toml" Toml Sample.boot _ _ eq_refl) as [_ H].
    reflexivity.
Defined.

(** X4. [write_file] touches the file of its path only.  When [open] refuses
    the path, no file changes.  Once the file is open, what it held before
    is gone, whether [write_file] then returns or raises: the file keeps its
    read permission and holds what the serializer wrote, or nothing when
    the tag is not supported. *)
Theorem write_file_effect (lib : codecs) (v : value) (p fmt : string)
    (w w' : world) (o : outcome unit) :
  write_file lib v p fmt w = (o, w') ->
  (forall q, q <> p -> files w' !! q = files w !! q)
  /\ match open_mode (files w !! p) with
     | Some r =>
         files w' !! p
         = Some (File r true
                   match select fmt with
                   | Some f => text (serializer lib f v)
                   | None => ""
                   end)
     | None => files w' = files w
     end.
Proof. apply write_file_lookups. Qed.

Lemma write_file_effect_witness :
  (forall q,
     q <> "config.json" ->
     files (write_file Sample.pylib (VDate 2001 12 14) "config.json" "json"
              Sample.boot).2 !! q
     = files Sample.boot !! q)
  /\ files (write_file Sample.pylib (VDate 2001 12 14) "config.json" "json"
              Sample.boot).2 !! "config.json"
     = Some (File true true "").
Proof.
  exact (write_file_effect Sample.pylib (VDate 2001 12 14) "config.json"
           "json" Sample.boot _ _ eq_refl).
Defined.

(** ** What a run leaves behind *)

Section Runs.

Variable lib : codecs.

Lemma check_formats_files a w : files (check_formats a w).2 = files w.
Proof. by rewrite check_formats_runs. Qed.

Lemma check_formats_log a w :
  log (check_formats a w).2 = (log w ++ advisory a)%list.
Proof. by rewrite check_formats_runs. Qed.

(** The run when [load_file] raises, from what [load_file] does on [w]. *)
Lemma run_when_load_raises a w e w1 :
  load_file lib (input_file a) (input_format a) w = (Raise e, w1) ->
  (run lib a w).1 = 1%Z
  /\ files (run lib a w).2 = files w
  /\ log (run lib a w).2
     = (log w ++ advisory a
        ++ load_report (input_file a) e ++ main_report e)%list.
Proof.
  intros Hl.
  destruct (load_file_same_files lib _ _ w (check_formats a w).2 _ _
              (check_formats_files a w) Hl) as (w2 & Hl0).
  rewrite (run_load_raises lib a w e w2 Hl0). simpl.
  apply load_file_log in Hl0 as [Hf Hg].
  rewrite Hf, check_formats_files, Hg, check_formats_log.
  by rewrite <- !app_assoc.
Qed.

(** The run when [load_file] returns. *)
Lemma run_when_load_returns a w v w1 :
  load_file lib (input_file a) (input_format a) w = (Return v, w1) ->
  exists o w2,
    write_file lib v (output_file a) (output_format a) (check_formats a w).2
    = (o, w2)
    /\ match o with
       | Return _ =>
           run lib a w = (0%Z, add_log [(INFO, success_message a)] w2)
       | Raise e => run lib a w = (1%Z, add_log (main_report e) w2)
       | Exit _ => False
       end.
Proof.
  intros Hl.
  destruct (load_file_same_files lib _ _ w (check_formats a w).2 _ _
              (check_formats_files a w) Hl) as (w2 & Hl0).
  pose proof (load_file_returns lib _ _ _ _ _ Hl0) as [-> _].
  destruct (write_file lib v (output_file a) (output_format a)
              (check_formats a w).2) as [[[]|e|s] w3] eqn:Hw.
  - eexists _, _. split; [done|]. by apply run_success with (v := v) (w1 := (check_formats a w).2).
  - eexists _, _. split; [done|]. by apply run_write_raises with (v := v) (w1 := (check_formats a w).2).
  - by apply write_file_no_exit in Hw.
Qed.

End Runs.

(** X5. A run changes no file other than the output file; and when
    [load_file] fails, it changes no file at all: the output file is neither
    created nor emptied. *)
Theorem run_touches_output_only (lib : codecs) (a : args) (w : world) :
  (forall q,
     q <> output_file a -> files (run lib a w).2 !! q = files w !! q)
  /\ (forall e w1,
        load_file lib (input_file a) (input_format a) w = (Raise e, w1) ->
        files (run lib a w).2 = files w).
Proof.
  split.
  - intros q Hq.
    destruct (load_file lib (input_file a) (input_format a) w)
      as [[v|e|s] w1] eqn:Hl.
    + destruct (run_when_load_returns lib a w v w1 Hl) as (o & w2 & Hw & Hr).
      pose proof (write_file_lookups lib _ _ _ _ _ _ Hw) as [Hframe _].
      destruct o as [[]|e|s]; [| |done]; rewrite Hr; simpl;
        by rewrite (Hframe q Hq), check_formats_files.
    + destruct (run_when_load_raises lib a w e w1 Hl) as (_ & -> & _). done.
    + by apply load_file_no_exit in Hl.
  - intros e w1 Hl. by destruct (run_when_load_raises lib a w e w1 Hl) as (_ & -> & _).
Qed.

Lemma run_touches_output_only_witness :
  files (run Sample.pylib (mk_args "broken.json" "config.yaml" "json" "yaml")
           Sample.boot).2
  = files Sample.boot.
Proof.
  exact (proj2 (run_touches_output_only Sample.pylib
                  (mk_args "broken.json" "config.yaml" "json" "yaml")
                  Sample.boot) _ _ eq_refl).
Defined.

(** X6. When the input loads and the output file opens but the serializer
    then raises, the run ends with status 1 and the output file holds only
    what the serializer had written before it raised: its earlier content is
    lost.  With the output path equal to the input path, this is the input
    file. *)
Theorem failed_write_keeps_partial_output (lib : codecs) (f g : format)
    (inp out : string) (w : world) (wr r : bool) (c t : string) (v : value)
    (e : exn) :
  files w !! inp = Some (File true wr c) ->
  parser lib f c = Ok v ->
  open_mode (files w !! out) = Some r ->
  serializer lib g v = mk_emitted t (Some e) ->
  (run lib (mk_args inp out (tag f) (tag g)) w).1 = 1%Z
  /\ files (run lib (mk_args inp out (tag f) (tag g)) w).2 !! out
     = Some (File r true t).
Proof.
  intros Hp Hv Hm Hs. set (a := mk_args inp out (tag f) (tag g)).
  assert (Hl : load_file lib (input_file a) (input_format a) w = (Return v, w)).
  { simpl. rewrite (load_file_readable lib inp f w wr c Hp).
    unfold load_via. by rewrite Hv. }
  destruct (run_when_load_returns lib a w v w Hl) as (o & w2 & Hw & Hr).
  pose proof (write_file_lookups lib _ _ _ _ _ _ Hw) as [_ Hout].
  simpl in Hout, Hw. rewrite check_formats_files, Hm, select_tag, Hs in Hout.
  rewrite (write_file_opened lib v out g _ r) in Hw
    by by rewrite check_formats_files.
  unfold write_via in Hw. rewrite Hs in Hw. simpl in Hw.
  injection Hw as <- <-. rewrite Hr. simpl. split; [done|].
  apply lookup_insert_eq.
Qed.

Lemma failed_write_keeps_partial_output_witness :
  (run Sample.pylib (mk_args "date.yaml" "date.yaml" "yaml" "json")
     Sample.boot).1 = 1%Z
  /\ files (run Sample.pylib (mk_args "date.yaml" "date.yaml" "yaml" "json")
              Sample.boot).2 !! "date.yaml"
     = Some (File true true "").
Proof.
  exact (failed_write_keeps_partial_output Sample.pylib Yaml Json "date.yaml"
           "date.yaml" Sample.boot true true "2001-12-14" ""
           (VDate 2001 12 14)
           (mk_exn TypeError "Object of type date is not JSON serializable")
           eq_refl eq_refl eq_refl eq_refl).
Defined.

(** ** Status and log *)

Lemma load_failure_records p e :
  exists m, (load_report p e ++ main_report e)%list = [(ERROR, m)].
Proof.
  unfold load_report, main_report.
  destruct (isinstance e FileNotFoundError); [by eexists|].
  destruct (isinstance e ValueError); by eexists.
Qed.

Lemma write_failure_records e :
  (write_report e ++ main_report e)%list
  = if isinstance e ValueError then [(ERROR, str e)]
    else if isinstance e FileNotFoundError
         then [(ERROR, "An unexpected error occurred: " ++ str e)]
         else [(ERROR, "An unexpected error occurred: " ++ str e);
               (ERROR, "An unexpected error occurred: " ++ str e)].
Proof.
  unfold write_report, main_report.
  destruct (isinstance e ValueError), (isinstance e FileNotFoundError); done.
Qed.

Lemma write_file_same_files (lib : codecs) v p fmt w w0 o w1 :
  files w0 = files w ->
  write_file lib v p fmt w = (o, w1) ->
  exists w2, write_file lib v p fmt w0 = (o, w2).
Proof.
  intros Hf Hw.
  destruct (write_file_frame lib v p fmt w w0) as (o' & el & H).
  { by rewrite Hf. }
  destruct H as [(n & H1 & H2)|[H1 H2]];
    rewrite H1 in Hw; injection Hw as -> _; by eexists.
Qed.

Lemma main_outcome (lib : codecs) a w :
  (main lib a w).1 = Return tt \/ (main lib a w).1 = Exit 1.
Proof.
  unfold main, convert, mbind, M_bind, bind, try_except.
  rewrite check_formats_runs.
  destruct (load_file lib (input_file a) (input_format a) _)
    as [[v|e|s] w1] eqn:Hl.
  - destruct (write_file lib v (output_file a) (output_format a) w1)
      as [[[]|e|s] w2] eqn:Hw.
    + by left.
    + right. by rewrite dispatch_main.
    + by apply write_file_no_exit in Hw.
  - right. by rewrite dispatch_main.
  - by apply load_file_no_exit in Hl.
Qed.

(** The log of a run whose write fails. *)
Lemma run_when_write_raises (lib : codecs) a w v w1 e w2 :
  load_file lib (input_file a) (input_format a) w = (Return v, w1) ->
  write_file lib v (output_file a) (output_format a) w = (Raise e, w2) ->
  (run lib a w).1 = 1%Z
  /\ log (run lib a w).2
     = (log w ++ advisory a ++ write_report e ++ main_report e)%list.
Proof.
  intros Hl Hw.
  destruct (run_when_load_returns lib a w v w1 Hl) as (o & w3 & Hw0 & Hr).
  destruct (write_file_same_files lib _ _ _ w (check_formats a w).2 _ _
              (check_formats_files a w) Hw) as (w4 & Hw1).
  rewrite Hw1 in Hw0. injection Hw0 as <- <-. rewrite Hr. simpl.
  apply write_file_log in Hw1. rewrite Hw1, check_formats_log.
  by rewrite <- !app_assoc.
Qed.

(** The log of a run that succeeds. *)
Lemma run_when_write_returns (lib : codecs) a w v w1 w2 :
  load_file lib (input_file a) (input_format a) w = (Return v, w1) ->
  write_file lib v (output_file a) (output_format a) w = (Return tt, w2) ->
  (run lib a w).1 = 0%Z
  /\ files (run lib a w).2 = files w2
  /\ log (run lib a w).2
     = (log w ++ advisory a ++ [(INFO, success_message a)])%list.
Proof.
  intros Hl Hw.
  destruct (run_when_load_returns lib a w v w1 Hl) as (o & w3 & Hw0 & Hr).
  destruct (write_file_same_files lib _ _ _ w (check_formats a w).2 _ _
              (check_formats_files a w) Hw) as (w4 & Hw1).
  rewrite Hw1 in Hw0. injection Hw0 as <- <-. rewrite Hr. simpl.
  pose proof (write_file_log lib _ _ _ _ _ _ Hw1) as Hlog. simpl in Hlog.
  pose proof (write_file_files lib _ _ _ _ _ _ Hw1) as Hf1.
  pose proof (write_file_files lib _ _ _ _ _ _ Hw) as Hf2.
  rewrite check_formats_files in Hf1.
  rewrite Hlog, check_formats_log. split; [done|]. split.
  - destruct (open_mode (files w !! output_file a)); by rewrite Hf1, Hf2.
  - by rewrite <- !app_assoc.
Qed.

(** X7. [main] lets no exception out: it returns, or it exits with status 1.
    After the advisory, a run that ends with status 0 has logged the success
    message at INFO and nothing else, and a run that ends with status 1 has
    logged at ERROR, at least once, and nothing else. *)
Theorem status_and_log (lib : codecs) (a : args) (w : world) :
  ((main lib a w).1 = Return tt \/ (main lib a w).1 = Exit 1)
  /\ exists entries,
       log (run lib a w).2 = (log w ++ advisory a ++ entries)%list
       /\ (((run lib a w).1 = 0%Z /\ entries = [(INFO, success_message a)])
           \/ ((run lib a w).1 = 1%Z /\ entries <> []
               /\ Forall (fun r => r.1 = ERROR) entries)).
Proof.
  split; [apply main_outcome|].
  destruct (load_file lib (input_file a) (input_format a) w)
    as [[v|e|s] w1] eqn:Hl.
  - destruct (write_file lib v (output_file a) (output_format a) w)
      as [[[]|e|s] w2] eqn:Hw.
    + destruct (run_when_write_returns lib a w v w1 w2 Hl Hw) as (-> & _ & ->).
      eexists. split; [done|]. by left.
    + destruct (run_when_write_raises lib a w v w1 e w2 Hl Hw) as (-> & ->).
      eexists. split; [done|]. right. split; [done|].
      rewrite write_failure_records.
      destruct (isinstance e ValueError); [|destruct (isinstance e _)];
        (split; [done|]); repeat constructor.
    + by apply write_file_no_exit in Hw.
  - destruct (run_when_load_raises lib a w e w1 Hl) as (-> & _ & ->).
    destruct (load_failure_records (input_file a) e) as (m & ->).
    eexists. split; [done|]. right. split; [done|]. split; [done|].
    repeat constructor.
  - by apply load_file_no_exit in Hl.
Qed.

(** X8. A failure of [load_file] is logged once.  A failure of [write_file]
    is logged once when the exception is a [ValueError] or a
    [FileNotFoundError], and twice, with the same "An unexpected error
    occurred" record, otherwise: [write_file] logs it and raises it again,
    and [main] logs it a second time. *)
Theorem failure_records (lib : codecs) (a : args) (w : world) :
  (forall e w1,
     load_file lib (input_file a) (input_format a) w = (Raise e, w1) ->
     exists m,
       log (run lib a w).2 = (log w ++ advisory a ++ [(ERROR, m)])%list)
  /\ (forall v w1 e w2,
        load_file lib (input_file a) (input_format a) w = (Return v, w1) ->
        write_file lib v (output_file a) (output_format a) w = (Raise e, w2) ->
        log (run lib a w).2
        = (log w ++ advisory a
           ++ if isinstance e ValueError then [(ERROR, str e)]
              else if isinstance e FileNotFoundError
                   then [(ERROR, ("An unexpected error occurred: " ++ str e)%string)]
                   else [(ERROR, ("An unexpected error occurred: " ++ str e)%string);
                         (ERROR, ("An unexpected error occurred: " ++ str e)%string)])%list).
Proof.
  split.
  - intros e w1 Hl.
    destruct (run_when_load_raises lib a w e w1 Hl) as (_ & _ & ->).
    destruct (load_failure_records (input_file a) e) as (m & ->). by exists m.
  - intros v w1 e w2 Hl Hw.
    destruct (run_when_write_raises lib a w v w1 e w2 Hl Hw) as (_ & ->).
    by rewrite write_failure_records.
Qed.

Lemma failure_records_witness :
  log (run Sample.pylib (mk_args "config.json" "etc" "json" "yaml")
         Sample.boot).2
  = [(ERROR, "An unexpected error occurred: [Errno 21] Is a directory: 'etc'");
     (ERROR, "An unexpected error occurred: [Errno 21] Is a directory: 'etc'")].
Proof.
  exact (proj2 (failure_records Sample.pylib
                  (mk_args "config.json" "etc" "json" "yaml") Sample.boot)
           _ _ (mk_exn IsADirectoryError _) _ eq_refl eq_refl).
Defined.

(** ** Conversions in sequence *)

(** A conversion that succeeds, in full. *)
Lemma run_converts (lib : codecs) f g inp out w wr c v s :
  files w !! inp = Some (File true wr c) ->
  parser lib f c = Ok v ->
  serializer lib g v = mk_emitted s None ->
  usable_output w out = true ->
  (run lib (mk_args inp out (tag f) (tag g)) w).1 = 0%Z
  /\ files (run lib (mk_args inp out (tag f) (tag g)) w).2
     = <[out := File true true s]> (files w).
Proof.
  intros Hp Hv Hs Hu. set (a := mk_args inp out (tag f) (tag g)).
  assert (Hl : load_file lib (input_file a) (input_format a) w = (Return v, w)).
  { simpl. rewrite (load_file_readable lib inp f w wr c Hp).
    unfold load_via. by rewrite Hv. }
  assert (Hw : write_file lib v (output_file a) (output_format a) w
               = (Return tt, set_file out (File true true s) w)).
  { simpl. rewrite (write_file_opened lib v out g w true)
      by by apply usable_output_mode.
    unfold write_via. by rewrite Hs. }
  by destruct (run_when_write_returns lib a w v w _ Hl Hw) as (-> & -> & _).
Qed.

Lemma usable_output_after (w w' : world) out p s :
  usable_output w p = true ->
  files w' = <[out := File true true s]> (files w) ->
  usable_output w' p = true.
Proof.
  unfold usable_output. intros Hu ->.
  destruct (decide (out = p)) as [->|Hne].
  - by rewrite lookup_insert_eq.
  - by rewrite lookup_insert_ne.
Qed.

(** X9. There and back.  Let [load_file] return [v] for the input, in format
    [src], and let [v] be expressible in the formats.  Converting the input
    to format [tgt] and converting the result back to [src] both end with
    status 0, and the file that comes back loads as [v] again; the output
    paths need only be free or readable and writable files, and may be the
    same path. *)
Theorem there_and_back (lib : codecs) (src tgt : format)
    (inp mid back : string) (w w1 : world) (v : value) :
  load_file lib inp (tag src) w = (Return v, w1) ->
  expressible lib v ->
  usable_output w mid = true ->
  usable_output w back = true ->
  exists wa wb,
    run lib (mk_args inp mid (tag src) (tag tgt)) w = (0%Z, wa)
    /\ run lib (mk_args mid back (tag tgt) (tag src)) wa = (0%Z, wb)
    /\ load_file lib back (tag src) wb = (Return v, wb).
Proof.
  intros Hl Hx Hm Hb.
  destruct (load_file_returns lib _ _ _ _ _ Hl)
    as (_ & f & wr & c & Hf & Hp & Hv).
  assert (f = src) as -> by (destruct f, src; by inversion Hf).
  destruct (Hx tgt) as (s & Hs & Hr). destruct (Hx src) as (s' & Hs' & Hr').
  destruct (run_converts lib src tgt inp mid w wr c v s Hp Hv Hs Hm)
    as [H1 F1].
  destruct (run lib (mk_args inp mid (tag src) (tag tgt)) w) as [st wa] eqn:Ra.
  simpl in H1, F1. subst st.
  assert (Hmid : files wa !! mid = Some (File true true s)).
  { rewrite F1. apply lookup_insert_eq. }
  pose proof (usable_output_after w wa mid back s Hb F1) as Hb'.
  destruct (run_converts lib tgt src mid back wa true s v s' Hmid Hr Hs' Hb')
    as [H2 F2].
  destruct (run lib (mk_args mid back (tag tgt) (tag src)) wa)
    as [st wb] eqn:Rb.
  simpl in H2, F2. subst st. exists wa, wb. split; [done|]. split; [done|].
  erewrite load_file_readable; [|rewrite F2; apply lookup_insert_eq].
  unfold load_via. by rewrite Hr'.
Qed.

Lemma there_and_back_witness :
  exists wa wb,
    run Sample.pylib (mk_args "config.json" "tmp.toml" "json" "toml")
      Sample.boot = (0%Z, wa)
    /\ run Sample.pylib (mk_args "tmp.toml" "config.json" "toml" "json") wa
       = (0%Z, wb)
    /\ load_file Sample.pylib "config.json" "json" wb = (Return Sample.ab, wb).
Proof.
  exact (there_and_back Sample.pylib Json Toml "config.json" "tmp.toml"
           "config.json" Sample.boot Sample.boot Sample.ab eq_refl
           sample_expressible eq_refl eq_refl).
Defined.

(** X10. Converting again changes nothing.  After a conversion whose output
    document parses back, in the target format, to the value that was
    written, converting the output file to its own format in place ends
    with status 0 and leaves every file as the first conversion left it. *)
Theorem reconversion_fixed_point (lib : codecs) (f g : format)
    (inp out : string) (w : world) (wr : bool) (c s : string) (v : value) :
  files w !! inp = Some (File true wr c) ->
  parser lib f c = Ok v ->
  serializer lib g v = mk_emitted s None ->
  parser lib g s = Ok v ->
  usable_output w out = true ->
  exists w1 w2,
    run lib (mk_args inp out (tag f) (tag g)) w = (0%Z, w1)
    /\ run lib (mk_args out out (tag g) (tag g)) w1 = (0%Z, w2)
    /\ files w1 !! out = Some (File true true s)
    /\ files w2 = files w1.
Proof.
  intros Hp Hv Hs Hr Hu.
  destruct (run_converts lib f g inp out w wr c v s Hp Hv Hs Hu) as [H1 F1].
  destruct (run lib (mk_args inp out (tag f) (tag g)) w) as [st w1] eqn:R1.
  simpl in H1, F1. subst st.
  assert (Hout : files w1 !! out = Some (File true true s)).
  { rewrite F1. apply lookup_insert_eq. }
  assert (Hu1 : usable_output w1 out = true).
  { unfold usable_output. by rewrite Hout. }
  destruct (run_converts lib g g out out w1 true s v s Hout Hr Hs Hu1)
    as [H2 F2].
  destruct (run lib (mk_args out out (tag g) (tag g)) w1) as [st w2] eqn:R2.
  simpl in H2, F2. subst st. exists w1, w2. repeat split; try done.
  rewrite F2. by apply insert_id.
Qed.

Lemma reconversion_fixed_point_witness :
  exists w1 w2,
    run Sample.pylib (mk_args "config.json" "out.toml" "json" "toml")
      Sample.boot = (0%Z, w1)
    /\ run Sample.pylib (mk_args "out.toml" "out.toml" "toml" "toml") w1
       = (0%Z, w2)
    /\ files w1 !! "out.toml" = Some (File true true Sample.ab_toml)
    /\ files w2 = files w1.
Proof.
  exact (reconversion_fixed_point Sample.pylib Json Toml "config.json"
           "out.toml" Sample.boot true Sample.ab_json_compact Sample.ab_toml
           Sample.ab eq_refl eq_refl eq_refl eq_refl eq_refl).
Defined.

(** ** Order of the checks *)

(** X11. The file is opened before anything else is looked at.  On a path
    that [open] refuses, [load_file] fails with the [OSError] of [open]
    whatever the format tag and the libraries are, supported tag or not, and
    [write_file] does so whatever the value is as well, changing no file. *)
Theorem open_errors_come_first (lib lib' : codecs) (v v' : value)
    (p fmt fmt' : string) (w : world) :
  ((forall wr c, files w !! p <> Some (File true wr c)) ->
   load_file lib p fmt w = load_file lib' p fmt' w
   /\ exists e,
        (load_file lib p fmt w).1 = Raise e /\ isinstance e OSError = true)
  /\ (open_mode (files w !! p) = None ->
      write_file lib v p fmt w = write_file lib' v' p fmt' w
      /\ files (write_file lib v p fmt w).2 = files w
      /\ exists e,
           (write_file lib v p fmt w).1 = Raise e
           /\ isinstance e OSError = true).
Proof.
  split.
  - intros Hn.
    pose proof (load_file_cases lib p fmt w) as H1.
    pose proof (load_file_cases lib' p fmt' w) as H2.
    destruct (files w !! p) as [[[] wr c|]|]; [by destruct (Hn wr c)|..].
    all: rewrite H1, H2; split; [done|]; by eexists.
  - intros Hm. unfold write_file, open_w. step_py.
    destruct (files w !! p) as [[r [] c|]|]; try discriminate; simpl.
    all: split; [done|]; split; [done|]; by eexists.
Qed.

Lemma open_errors_come_first_witness :
  load_file Sample.pylib "nope.ini" "ini" Sample.boot
  = load_file Sample.pylib "nope.ini" "yaml" Sample.boot
  /\ write_file Sample.pylib Sample.ab "etc" "ini" Sample.boot
     = write_file Sample.pylib VNone "etc" "json" Sample.boot.
Proof.
  destruct (open_errors_come_first Sample.pylib Sample.pylib Sample.ab VNone
              "nope.ini" "ini" "yaml" Sample.boot) as [Hl _].
  destruct (open_errors_come_first Sample.pylib Sample.pylib Sample.ab VNone
              "etc" "ini" "json" Sample.boot) as [_ Hw].
  split.
  - apply Hl. intros wr c. discriminate.
  - by apply Hw.
Defined.

(** ** When a run succeeds *)

(** X12. A run ends with status 0 exactly when both tags are supported, the
    input path holds a readable file whose text the parser of the input
    format accepts, the output file opens, and the serializer of the output
    format accepts the value. *)
Theorem run_succeeds_iff (lib : codecs) (a : args) (w : world) :
  (run lib a w).1 = 0%Z
  <-> exists f g wr c v r,
        input_format a = tag f /\ output_format a = tag g
        /\ files w !! input_file a = Some (File true wr c)
        /\ parser lib f c = Ok v
        /\ open_mode (files w !! output_file a) = Some r
        /\ failure (serializer lib g v) = None.
Proof.
  split.
  - intros H0.
    destruct (load_file lib (input_file a) (input_format a) w)
      as [[v|e|s] w1] eqn:Hl.
    + destruct (load_file_returns lib _ _ _ _ _ Hl)
        as (_ & f & wr & c & Hf & Hp & Hv).
      destruct (write_file lib v (output_file a) (output_format a) w)
        as [[[]|e|s] w2] eqn:Hw.
      * pose proof (write_file_cases lib v (output_file a) (output_format a) w)
          as Hc.
        destruct (open_mode (files w !! output_file a)) as [r|] eqn:Hm.
        -- destruct (select (output_format a)) as [g|] eqn:Hg.
           ++ apply select_Some in Hg. rewrite Hc in Hw. unfold write_via in Hw.
              simpl in Hw.
              destruct (failure (serializer lib g v)) eqn:Hs; [done|].
              by exists f, g, wr, c, v, r.
           ++ by rewrite Hc in Hw.
        -- destruct Hc as (e & _ & Hc). by rewrite Hc in Hw.
      * by destruct (run_when_write_raises lib a w v w1 e w2 Hl Hw) as [H1 _];
          rewrite H1 in H0.
      * by apply write_file_no_exit in Hw.
    + by destruct (run_when_load_raises lib a w e w1 Hl) as [H1 _];
        rewrite H1 in H0.
    + by apply load_file_no_exit in Hl.
  - intros (f & g & wr & c & v & r & Hf & Hg & Hp & Hv & Hm & Hs).
    assert (Hl : load_file lib (input_file a) (input_format a) w
                 = (Return v, w)).
    { rewrite Hf, (load_file_readable lib _ f w wr c Hp).
      unfold load_via. by rewrite Hv. }
    assert (Hw : exists w2,
               write_file lib v (output_file a) (output_format a) w
               = (Return tt, w2)).
    { rewrite Hg, (write_file_opened lib v _ g w r Hm).
      unfold write_via. simpl. rewrite Hs. by eexists. }
    destruct Hw as (w2 & Hw).
    by destruct (run_when_write_returns lib a w v w w2 Hl Hw) as [-> _].
Qed.

Lemma run_succeeds_iff_witness :
  (run Sample.pylib (mk_args "config.json" "out.yaml" "json" "yaml")
     Sample.boot).1 = 0%Z.
Proof.
  apply (proj2 (run_succeeds_iff Sample.pylib
                  (mk_args "config.json" "out.yaml" "json" "yaml")
                  Sample.boot)).
  exists Json, Yaml, true, Sample.ab_json_compact, Sample.ab, true.
  repeat split.
Defined.

(** ** Which library calls are made *)

(** X13. Each function consults the library call of the selected format
    only.  [load_file] gives the same for two sets of libraries whose parser
    of the selected format agree, so YAML is read through [SafeLoader] and
    through no other loader; [write_file] gives the same when the
    serializers of the selected format agree on the value at indent 2.  For
    a tag that is not supported, no library is consulted at all. *)
Theorem selected_codec_only (lib lib' : codecs) (v : value) (p fmt : string)
    (w : world) :
  ((forall f s, select fmt = Some f -> parser lib f s = parser lib' f s) ->
   load_file lib p fmt w = load_file lib' p fmt w)
  /\ ((forall f, select fmt = Some f -> serializer lib f v = serializer lib' f v) ->
      write_file lib v p fmt w = write_file lib' v p fmt w).
Proof.
  split.
  - intros Hsame.
    pose proof (load_file_cases lib p fmt w) as H1.
    pose proof (load_file_cases lib' p fmt w) as H2.
    destruct (files w !! p) as [[[] wr c|]|]; [|by rewrite H1, H2..].
    destruct (select fmt) as [f|]; [|by rewrite H1, H2].
    rewrite H1, H2. unfold load_via. by rewrite (Hsame f c).
  - intros Hsame.
    pose proof (write_file_cases lib v p fmt w) as H1.
    pose proof (write_file_cases lib' v p fmt w) as H2.
    destruct (open_mode (files w !! p)) as [r|] eqn:Hm.
    + destruct (select fmt) as [f|]; [|by rewrite H1, H2].
      rewrite H1, H2. unfold write_via. by rewrite (Hsame f).
    + unfold write_file, open_w. step_py.
      destruct (files w !! p) as [[r [] c|]|]; try discriminate; done.
Qed.

Lemma selected_codec_only_witness :
  load_file Sample.pylib "tagged.yaml" "yaml" Sample.boot
  = load_file
      (mk_codecs
         (fun loader s =>
            match loader with
            | SafeLoader => yaml_load Sample.pylib SafeLoader s
            | _ => Ok (VObject "builtin_function_or_method")
            end)
         (json_load Sample.pylib) (toml_load Sample.pylib)
         (yaml_dump Sample.pylib) (json_dump Sample.pylib)
         (toml_dump Sample.pylib))
      "tagged.yaml" "yaml" Sample.boot.
Proof.
  apply (proj1 (selected_codec_only Sample.pylib _ VNone "tagged.yaml" "yaml"
                  Sample.boot)).
  intros f s [= <-]. reflexivity.
Defined.

(** ** What a run depends on *)

(** X14. A run looks at the files of its two paths only.  Two runs with the
    same arguments, from worlds that hold the same thing at the input path
    and the same thing at the output path and may differ anywhere else, end
    with the same status, leave the same thing at the output path, and add
    the same records to the log. *)
Theorem run_depends_on_its_two_files (lib : codecs) (a : args)
    (w1 w2 : world) :
  files w1 !! input_file a = files w2 !! input_file a ->
  files w1 !! output_file a = files w2 !! output_file a ->
  (run lib a w1).1 = (run lib a w2).1
  /\ files (run lib a w1).2 !! output_file a
     = files (run lib a w2).2 !! output_file a
  /\ exists entries,
       log (run lib a w1).2 = (log w1 ++ entries)%list
       /\ log (run lib a w2).2 = (log w2 ++ entries)%list.
Proof.
  intros Hi Ho.
  destruct (run_frame lib a w1 w2 Hi Ho)
    as (st & entries & -> & -> & Hf & H1 & H2).
  split; [done|]. split; [done|]. by exists (advisory a ++ entries)%list.
Qed.

Lemma run_depends_on_its_two_files_witness :
  (run Sample.pylib (mk_args "config.json" "out.toml" "json" "toml")
     Sample.boot).1
  = (run Sample.pylib (mk_args "config.json" "out.toml" "json" "toml")
       (set_file "other.txt" (File true true "x") Sample.boot)).1
  /\ files (run Sample.pylib (mk_args "config.json" "out.toml" "json" "toml")
              Sample.boot).2 !! "out.toml"
     = files (run Sample.pylib (mk_args "config.json" "out.toml" "json" "toml")
                (set_file "other.txt" (File true true "x") Sample.boot)).2
       !! "out.toml".
Proof.
  destruct (run_depends_on_its_two_files Sample.pylib
              (mk_args "config.json" "out.toml" "json" "toml")
              Sample.boot
              (set_file "other.txt" (File true true "x") Sample.boot)
              eq_refl eq_refl) as (Hs & Hf & _).
  by split.
Defined.
